(** * Library management system: a shallow embedding of [project.py]

    The development follows the layout of the Python module: helper
    functions ([generate_id], [search_items]), the [Book] and [Borrower]
    classes, and the [Library] registry with its [checkout_book] and
    [return_book] transitions.

    Modelling conventions.
    - A Python [str] is a [string]; its characters are read as code points
      below 256.
    - A Python [dict] is an association list in insertion order.  Lookup and
      assignment act on the first entry of a key, so on a list without
      repeated keys (every real [dict]) they are the Python operations.
    - A call either returns a value or raises: [outcome].
    - Objects are stored by value.  [Library.load], [add_book] and
      [add_borrower] build a fresh object per key, so no two keys of a
      registry share an object, and writing the mutated object back under its
      key is the effect of the in-place mutation.
    - [Library.save] rewrites two files; the file system is a component of
      the state and a write is taken to succeed: the data directory exists
      and can be written.  A call that raises out of [save], after it has
      changed the registry, is outside the model. *)

From Stdlib Require Import List String Ascii ZArith Lia Bool Permutation.
From Stdlib Require Import DecimalString DecimalN DecimalPos.
Import ListNotations.

#[local] Open Scope string_scope.
#[local] Open Scope list_scope.

(* ================================================================= *)
(** ** Python primitives *)

Inductive exn : Type :=
| KeyError
| ValueError
| IndexError
| TypeError.

Inductive outcome (A : Type) : Type :=
| Returned (a : A)
| Raised (e : exn).

Arguments Returned {A} a.
Arguments Raised {A} e.

(** [x in l] and [l.remove(x)] on a list of strings.  [remove] deletes the
    first occurrence only; Python raises when there is none, and both callers
    test membership first, so the model leaves such a list as it is. *)

Fixpoint list_contains (x : string) (l : list string) : bool :=
  match l with
  | [] => false
  | y :: l' => if String.eqb y x then true else list_contains x l'
  end.

Fixpoint list_remove (x : string) (l : list string) : list string :=
  match l with
  | [] => []
  | y :: l' => if String.eqb y x then l' else y :: list_remove x l'
  end.

Section Dict.
Context {V : Type}.

Definition dict : Type := list (string * V).

(** [d.get(k)] *)
Fixpoint dict_get (k : string) (d : dict) : option V :=
  match d with
  | [] => None
  | (k', v) :: d' => if String.eqb k' k then Some v else dict_get k d'
  end.

(** [k in d] *)
Definition dict_mem (k : string) (d : dict) : bool :=
  match dict_get k d with
  | Some _ => true
  | None => false
  end.

(** [d[k]] *)
Definition dict_getitem (k : string) (d : dict) : outcome V :=
  match dict_get k d with
  | Some v => Returned v
  | None => Raised KeyError
  end.

(** [d[k] = v]: an existing key keeps its position, a new one goes last. *)
Fixpoint dict_set (k : string) (v : V) (d : dict) : dict :=
  match d with
  | [] => [(k, v)]
  | (k', v') :: d' =>
      if String.eqb k' k then (k, v) :: d' else (k', v') :: dict_set k v d'
  end.

Definition dict_keys (d : dict) : list string := map fst d.
Definition dict_values (d : dict) : list V := map snd d.
End Dict.

Arguments dict V : clear implicits.

(** [{k: f(v) for k, v in d.items()}] *)
Definition dict_comprehension {V W : Type} (f : V -> W) (d : dict V) : dict W :=
  fold_left (fun acc kv => dict_set (fst kv) (f (snd kv)) acc) d [].

(** The values a record of the JSON documents and a search criterion can
    hold.  Floats and nested dictionaries do not occur in the records of this
    program and are left out. *)
#[warnings="-register-all"]
Inductive value : Type :=
| VNone
| VBool (b : bool)
| VInt (n : Z)
| VStr (s : string)
| VList (l : list value).

(** Sequencing of calls that may raise. *)
Definition bind {A B : Type} (c : outcome A) (k : A -> outcome B) : outcome B :=
  match c with
  | Returned a => k a
  | Raised e => Raised e
  end.

Notation "x <- c ;; k" := (bind c (fun x => k))
  (at level 61, c at next level, right associativity).

(** [a == b].  [bool] is a subclass of [int] ([True == 1]); values of
    unrelated types are unequal; lists compare element by element. *)
Fixpoint py_eq (a b : value) : bool :=
  match a, b with
  | VNone, VNone => true
  | VBool x, VBool y => Bool.eqb x y
  | VBool x, VInt n => Z.eqb (Z.b2z x) n
  | VInt n, VBool x => Z.eqb n (Z.b2z x)
  | VInt m, VInt n => Z.eqb m n
  | VStr s, VStr t => String.eqb s t
  | VList l, VList l' =>
      (fix go (l l' : list value) : bool :=
         match l, l' with
         | [], [] => true
         | x :: xs, y :: ys => py_eq x y && go xs ys
         | _, _ => false
         end) l l'
  | _, _ => false
  end.

(** [s.lower()] on code points below 256: the letters A-Z and the Latin-1
    capitals U+00C0-U+00DE (the multiplication sign U+00D7 apart) move up by
    32, everything else stays. *)
Definition lower_char (c : ascii) : ascii :=
  let n := nat_of_ascii c in
  if ((65 <=? n) && (n <=? 90)
      || (192 <=? n) && (n <=? 222) && negb (n =? 215))%nat
  then ascii_of_nat (n + 32)
  else c.

Fixpoint lower (s : string) : string :=
  match s with
  | EmptyString => EmptyString
  | String c s' => String (lower_char c) (lower s')
  end.

(** [s.split(sep)] for a one-character separator: never empty. *)
Fixpoint split (sep : ascii) (s : string) : list string :=
  match s with
  | EmptyString => [EmptyString]
  | String c s' =>
      if Ascii.eqb c sep then EmptyString :: split sep s'
      else match split sep s' with
           | [] => [String c EmptyString]
           | w :: ws => String c w :: ws
           end
  end.

(** The white space [int] skips around a numeral, below 256: tab to
    carriage return, space, U+0085 and U+00A0. *)
Definition is_space (c : ascii) : bool :=
  let n := nat_of_ascii c in
  ((9 <=? n) && (n <=? 13) || (n =? 32) || (n =? 133) || (n =? 160))%nat.

Fixpoint lstrip (s : string) : string :=
  match s with
  | EmptyString => EmptyString
  | String c s' => if is_space c then lstrip s' else s
  end.

Fixpoint rstrip (s : string) : string :=
  match s with
  | EmptyString => EmptyString
  | String c s' =>
      match rstrip s' with
      | EmptyString => if is_space c then EmptyString else String c EmptyString
      | r => String c r
      end
  end.

Definition strip (s : string) : string := rstrip (lstrip s).

(** The interpreter's limit on the digits of a numeral converted from or to
    an integer, at its default ([sys.get_int_max_str_digits()]). *)
Definition int_max_str_digits : nat := 4300.

(** A non-empty run of the digits 0-9, no longer than the limit, read in
    base ten. *)
Definition parse_digits (s : string) : outcome Z :=
  if (int_max_str_digits <? String.length s)%nat then Raised ValueError
  else
    match NilZero.uint_of_string s with
    | Some d => Returned (Z.of_N (N.of_uint d))
    | None => Raised ValueError
    end.

(** [int(s)]: optional white space around an optional sign and digits.
    (Underscores between digits, which [int] also accepts, cannot reach it
    here: its argument is a piece of a string split at underscores.) *)
Definition py_int (s : string) : outcome Z :=
  match strip s with
  | String "-"%char r => n <- parse_digits r ;; Returned (- n)%Z
  | String "+"%char r => parse_digits r
  | r => parse_digits r
  end.

Definition decimal (n : N) : string := NilZero.string_of_uint (N.to_uint n).

Fixpoint zeros (n : nat) : string :=
  match n with
  | O => EmptyString
  | S n' => String "0"%char (zeros n')
  end.

(** [s.zfill(width)] for a string of digits. *)
Definition zfill (width : nat) (s : string) : string :=
  (zeros (width - String.length s) ++ s)%string.

(** [f"{n:04d}"]: at least four characters, the sign included; a number
    with more digits than the limit is not converted. *)
Definition format_04d (n : Z) : outcome string :=
  let digits := decimal (Z.abs_N n) in
  if (int_max_str_digits <? String.length digits)%nat then Raised ValueError
  else if (n <? 0)%Z then Returned (String "-"%char (zfill 3 digits))
  else Returned (zfill 4 digits).

(* ================================================================= *)
(** ** Values of a document at the declared types

    [from_dict] hands the values of a record to the constructor as they
    are, and the constructor stores them unchecked, the genre apart.  The
    records of this development hold each attribute at the type its class
    declares, so a value of another type has no image here: the reading is
    [None], and nothing is stated about such a document. *)

Definition as_str (v : value) : option string :=
  match v with
  | VStr s => Some s
  | _ => None
  end.

Definition as_bool (v : value) : option bool :=
  match v with
  | VBool b => Some b
  | _ => None
  end.

Fixpoint as_str_list (l : list value) : option (list string) :=
  match l with
  | [] => Some []
  | v :: l' =>
      match as_str v, as_str_list l' with
      | Some s, Some ss => Some (s :: ss)
      | _, _ => None
      end
  end.

(** [bool(v)] *)
Definition py_truthy (v : value) : bool :=
  match v with
  | VNone => false
  | VBool b => b
  | VInt n => negb (Z.eqb n 0)
  | VStr s => negb (String.eqb s "")
  | VList l => match l with [] => false | _ => true end
  end.

(** [os.path.join(a, b)] with the separator of POSIX. *)
Definition path_join (a b : string) : string :=
  if String.prefix "/" b then b
  else if String.eqb a "" then b
  else if String.eqb (substring (String.length a - 1) 1 a) "/" then (a ++ b)%string
  else (a ++ "/" ++ b)%string.

(* ================================================================= *)
(** ** Part 1: helper functions *)

(** [int(id.split("_")[1])] *)
Definition id_number (id : string) : outcome Z :=
  match split "_"%char id with
  | _ :: part :: _ => py_int part
  | _ => Raised IndexError
  end.

(** [[int(id.split("_")[1]) for id in existing_ids]] *)
Fixpoint id_numbers (existing_ids : list string) : outcome (list Z) :=
  match existing_ids with
  | [] => Returned []
  | id :: rest =>
      n <- id_number id ;;
      ns <- id_numbers rest ;;
      Returned (n :: ns)
  end.

(** [max(numbers)] *)
Definition py_max (numbers : list Z) : outcome Z :=
  match numbers with
  | [] => Raised ValueError
  | n :: rest => Returned (fold_left Z.max rest n)
  end.

Definition generate_id (prefix : string) (existing_ids : list string)
  : outcome string :=
  match existing_ids with
  | [] => Returned (prefix ++ "_0001")%string
  | _ =>
      numbers <- id_numbers existing_ids ;;
      max_num <- py_max numbers ;;
      number <- format_04d (max_num + 1) ;;
      Returned (prefix ++ "_" ++ number)%string
  end.

(** The loop over [criteria.items()] for one item: [match] stays [True]
    until a criterion fails, which leaves the loop. *)
Fixpoint criteria_loop (item : dict value) (criteria : dict value)
  : outcome bool :=
  match criteria with
  | [] => Returned true
  | (key, value) :: rest =>
      if negb (dict_mem key item) then Returned false
      else
        item_val <- dict_getitem key item ;;
        match item_val, value with
        | VStr a, VStr b =>
            if negb (String.eqb (lower a) (lower b)) then Returned false
            else criteria_loop item rest
        | _, _ =>
            if negb (py_eq item_val value) then Returned false
            else criteria_loop item rest
        end
  end.

(** The loop over [items], [results] being the list built so far. *)
Fixpoint search_loop (items : list (dict value)) (criteria : dict value)
    (results : list (dict value)) : outcome (list (dict value)) :=
  match items with
  | [] => Returned results
  | item :: items' =>
      m <- criteria_loop item criteria ;;
      search_loop items' criteria (if m then results ++ [item] else results)
  end.

(** [def search_items(items, **criteria)]: the call binds [items] by
    position and gathers the keywords in [criteria]; a keyword named like the
    positional parameter is refused with [TypeError] before the body runs. *)
Definition search_items (items : list (dict value)) (criteria : dict value)
  : outcome (list (dict value)) :=
  if dict_mem "items" criteria then Raised TypeError
  else search_loop items criteria [].

(* ================================================================= *)
(** ** Part 2: the Book class *)

Module Book.

Record t : Type := mk {
  book_id : string;
  title : string;
  author : string;
  genre : string;
  available : bool
}.

Definition GENRES : list string :=
  ["Fiction"; "Non-Fiction"; "Science"; "History"; "Technology"].

Definition __init__ (book_id title author genre : string) (available : bool)
  : outcome t :=
  if negb (list_contains genre GENRES) then Raised ValueError
  else Returned (mk book_id title author genre available).

Definition to_dict (self : t) : dict value :=
  [ ("book_id", VStr (book_id self));
    ("title", VStr (title self));
    ("author", VStr (author self));
    ("genre", VStr (genre self));
    ("available", VBool (available self)) ].

(** [self.available = v] *)
Definition set_available (v : bool) (self : t) : t :=
  mk (book_id self) (title self) (author self) (genre self) v.

(** The five subscripts of [from_dict], left to right: the first key that is
    missing raises [KeyError]. *)
Definition from_dict_arguments (data : dict value)
  : outcome (value * value * value * value * value) :=
  book_id <- dict_getitem "book_id" data ;;
  title <- dict_getitem "title" data ;;
  author <- dict_getitem "author" data ;;
  genre <- dict_getitem "genre" data ;;
  available <- dict_getitem "available" data ;;
  Returned (book_id, title, author, genre, available).

(** [cls(...)] on the values found.  A genre that is not a string is in no
    case one of [GENRES]. *)
Definition from_dict (data : dict value) : option (outcome t) :=
  match from_dict_arguments data with
  | Raised e => Some (Raised e)
  | Returned (vbook_id, vtitle, vauthor, vgenre, vavailable) =>
      match vgenre with
      | VStr genre =>
          match as_str vbook_id, as_str vtitle, as_str vauthor,
                as_bool vavailable with
          | Some book_id, Some title, Some author, Some available =>
              Some (__init__ book_id title author genre available)
          | _, _, _, _ =>
              if negb (list_contains genre GENRES) then Some (Raised ValueError)
              else None
          end
      | _ => Some (Raised ValueError)
      end
  end.

(** [__str__] *)
Definition __str__ (self : t) : string :=
  let status := if available self then "Available" else "Checked Out" in
  ("[" ++ book_id self ++ "] " ++ title self ++ " by " ++ author self
   ++ " (" ++ genre self ++ ") - " ++ status)%string.

End Book.

(* ================================================================= *)
(** ** Part 3: the Borrower class *)

Module Borrower.

Record t : Type := mk {
  borrower_id : string;
  name : string;
  email : string;
  borrowed_books : list string
}.

Definition MAX_BOOKS : nat := 3.

(** [borrowed_books if borrowed_books else []]: an absent or empty argument
    gives the empty list. *)
Definition __init__ (borrower_id name email : string)
    (borrowed_books : option (list string)) : t :=
  mk borrower_id name email
     (match borrowed_books with
      | Some (x :: l) => x :: l
      | _ => []
      end).

(** [self.borrowed_books] replaced by [l], the other fields kept. *)
Definition set_borrowed_books (l : list string) (self : t) : t :=
  mk (borrower_id self) (name self) (email self) l.

Definition can_borrow (self : t) : bool :=
  (List.length (borrowed_books self) <? MAX_BOOKS)%nat.

Definition borrow_book (book_id : string) (self : t) : bool * t :=
  if negb (can_borrow self) then (false, self)
  else (true, set_borrowed_books (borrowed_books self ++ [book_id]) self).

Definition return_book (book_id : string) (self : t) : bool * t :=
  if list_contains book_id (borrowed_books self)
  then (true, set_borrowed_books (list_remove book_id (borrowed_books self)) self)
  else (false, self).

Definition to_dict (self : t) : dict value :=
  [ ("borrower_id", VStr (borrower_id self));
    ("name", VStr (name self));
    ("email", VStr (email self));
    ("borrowed_books", VList (map VStr (borrowed_books self))) ].

(** [data.get("borrowed_books", [])] as the constructor takes it: a falsy
    value stands for no list. *)
Definition from_dict_books (data : dict value) : option (option (list string)) :=
  let v := match dict_get "borrowed_books" data with
           | Some v => v
           | None => VList []
           end in
  if negb (py_truthy v) then Some None
  else
    match v with
    | VList l => option_map Some (as_str_list l)
    | _ => None
    end.

Definition from_dict (data : dict value) : option (outcome t) :=
  match
    (borrower_id <- dict_getitem "borrower_id" data ;;
     name <- dict_getitem "name" data ;;
     email <- dict_getitem "email" data ;;
     Returned (borrower_id, name, email))
  with
  | Raised e => Some (Raised e)
  | Returned (vborrower_id, vname, vemail) =>
      match as_str vborrower_id, as_str vname, as_str vemail,
            from_dict_books data with
      | Some borrower_id, Some name, Some email, Some borrowed_books =>
          Some (Returned (__init__ borrower_id name email borrowed_books))
      | _, _, _, _ => None
      end
  end.

End Borrower.

(* ================================================================= *)
(** ** Part 4: the Library class *)

Module Library.

Record t : Type := mk {
  name : string;
  books : dict Book.t;
  borrowers : dict Borrower.t;
  books_file : string;
  borrowers_file : string
}.

(** A JSON document of the data directory: identifier to record. *)
Definition document : Type := dict (dict value).

(** The registry together with the files it is saved to. *)
Record world : Type := mk_world {
  self : t;
  files : dict document
}.

Definition set_books (bs : dict Book.t) (l : t) : t :=
  mk (name l) bs (borrowers l) (books_file l) (borrowers_file l).

Definition set_borrowers (bs : dict Borrower.t) (l : t) : t :=
  mk (name l) (books l) bs (books_file l) (borrowers_file l).

(** [save], on a data directory that exists and can be written: both
    documents are rewritten in full.  That [open] raises (no such directory,
    no permission) is not modelled; what the properties say of a call that
    returns holds as it is, since then [save] has completed, and they say
    nothing of a call that raises out of [save]. *)
Definition save (w : world) : world :=
  let l := self w in
  let books_data := dict_comprehension Book.to_dict (books l) in
  let fs := dict_set (books_file l) books_data (files w) in
  let borrowers_data := dict_comprehension Borrower.to_dict (borrowers l) in
  mk_world l (dict_set (borrowers_file l) borrowers_data fs).

Definition checkout_book (book_id borrower_id : string) (w : world)
  : outcome bool * world :=
  let l := self w in
  if negb (dict_mem book_id (books l)) || negb (dict_mem borrower_id (borrowers l))
  then (Returned false, w)
  else
    match dict_getitem book_id (books l) with
    | Raised e => (Raised e, w)
    | Returned book =>
      match dict_getitem borrower_id (borrowers l) with
      | Raised e => (Raised e, w)
      | Returned borrower =>
        if negb (Book.available book) || negb (Borrower.can_borrow borrower)
        then (Returned false, w)
        else
          let book' := Book.set_available false book in
          let l1 := set_books (dict_set book_id book' (books l)) l in
          let '(_, borrower') := Borrower.borrow_book book_id borrower in
          let l2 := set_borrowers (dict_set borrower_id borrower' (borrowers l1)) l1 in
          (Returned true, save (mk_world l2 (files w)))
      end
    end.

Definition return_book (book_id borrower_id : string) (w : world)
  : outcome bool * world :=
  let l := self w in
  if negb (dict_mem book_id (books l)) || negb (dict_mem borrower_id (borrowers l))
  then (Returned false, w)
  else
    match dict_getitem borrower_id (borrowers l) with
    | Raised e => (Raised e, w)
    | Returned borrower =>
      if negb (list_contains book_id (Borrower.borrowed_books borrower))
      then (Returned false, w)
      else
        match dict_getitem book_id (books l) with
        | Raised e => (Raised e, w)
        | Returned book =>
          let book' := Book.set_available true book in
          let l1 := set_books (dict_set book_id book' (books l)) l in
          let '(_, borrower') := Borrower.return_book book_id borrower in
          let l2 := set_borrowers (dict_set borrower_id borrower' (borrowers l1)) l1 in
          (Returned true, save (mk_world l2 (files w)))
        end
    end.

Definition add_book (title author genre : string) (w : world)
  : outcome Book.t * world :=
  let l := self w in
  match generate_id "BOOK" (dict_keys (books l)) with
  | Raised e => (Raised e, w)
  | Returned book_id =>
    match Book.__init__ book_id title author genre true with
    | Raised e => (Raised e, w)
    | Returned book =>
        let l1 := set_books (dict_set book_id book (books l)) l in
        (Returned book, save (mk_world l1 (files w)))
    end
  end.

Definition add_borrower (name email : string) (w : world)
  : outcome Borrower.t * world :=
  let l := self w in
  match generate_id "USER" (dict_keys (borrowers l)) with
  | Raised e => (Raised e, w)
  | Returned borrower_id =>
      let borrower := Borrower.__init__ borrower_id name email None in
      let l1 := set_borrowers (dict_set borrower_id borrower (borrowers l)) l in
      (Returned borrower, save (mk_world l1 (files w)))
  end.

(** [{bid: from_dict(b) for bid, b in data.items()}], [acc] being the
    dictionary built so far: the first record that raises ends it. *)
Fixpoint load_records {A : Type} (from_dict : dict value -> option (outcome A))
    (data : document) (acc : dict A) : option (outcome (dict A)) :=
  match data with
  | [] => Some (Returned acc)
  | (bid, b) :: rest =>
      match from_dict b with
      | None => None
      | Some (Raised e) => Some (Raised e)
      | Some (Returned a) => load_records from_dict rest (dict_set bid a acc)
      end
  end.

(** [load]: a file that does not exist gives an empty dictionary; an
    exception of [from_dict] is not caught, and what was assigned before it
    stays.  A file that exists holds a document (text that is not JSON, or
    not an object of objects, has no image here). *)
Definition load (w : world) : option (outcome unit * world) :=
  let l := self w in
  match
    match dict_get (books_file l) (files w) with
    | None => Some (Returned [])
    | Some books_data => load_records Book.from_dict books_data []
    end
  with
  | None => None
  | Some (Raised e) => Some (Raised e, w)
  | Some (Returned bs) =>
      let l1 := set_books bs l in
      match
        match dict_get (borrowers_file l1) (files w) with
        | None => Some (Returned [])
        | Some borrowers_data => load_records Borrower.from_dict borrowers_data []
        end
      with
      | None => None
      | Some (Raised e) => Some (Raised e, mk_world l1 (files w))
      | Some (Returned brs) =>
          Some (Returned tt, mk_world (set_borrowers brs l1) (files w))
      end
  end.

(** [Library(name, data_dir)] in a file system [fs]. *)
Definition __init__ (name data_dir : string) (fs : dict document)
  : option (outcome world) :=
  let l := mk name [] []
              (path_join data_dir "library_books.json")
              (path_join data_dir "library_borrowers.json") in
  match load (mk_world l fs) with
  | None => None
  | Some (Raised e, _) => Some (Raised e)
  | Some (Returned _, w) => Some (Returned w)
  end.

Definition get_available_books (l : t) : list Book.t :=
  filter Book.available (dict_values (books l)).

(** [[self.books[bid] for bid in ids if bid in self.books]] *)
Fixpoint books_listed (l : t) (ids : list string) : outcome (list Book.t) :=
  match ids with
  | [] => Returned []
  | bid :: rest =>
      if dict_mem bid (books l) then
        b <- dict_getitem bid (books l) ;;
        bs <- books_listed l rest ;;
        Returned (b :: bs)
      else books_listed l rest
  end.

Definition get_borrower_books (borrower_id : string) (l : t)
  : outcome (list Book.t) :=
  if negb (dict_mem borrower_id (borrowers l)) then Returned []
  else
    borrower <- dict_getitem borrower_id (borrowers l) ;;
    books_listed l (Borrower.borrowed_books borrower).

(** The dictionary [get_statistics] returns, a field for each of its keys. *)
Record statistics : Type := mk_statistics {
  total_books : nat;
  available_books : nat;
  checked_out : nat;
  total_borrowers : nat;
  books_by_genre : dict nat
}.

(** The loop of [get_statistics]:
    [books_by_genre[book.genre] = books_by_genre.get(book.genre, 0) + 1]. *)
Definition count_genre (books_by_genre : dict nat) (book : Book.t) : dict nat :=
  dict_set (Book.genre book)
    (match dict_get (Book.genre book) books_by_genre with
     | Some n => n
     | None => 0
     end + 1)%nat
    books_by_genre.

Definition get_statistics (l : t) : statistics :=
  let books_by_genre := fold_left count_genre (dict_values (books l)) [] in
  mk_statistics
    (List.length (books l))
    (List.length (filter Book.available (dict_values (books l))))
    (List.length (filter (fun b => negb (Book.available b)) (dict_values (books l))))
    (List.length (borrowers l))
    books_by_genre.

(** [def search_books(self, **criteria)]: a keyword named [self] is refused
    likewise. *)
Definition search_books (l : t) (criteria : dict value)
  : outcome (list (dict value)) :=
  if dict_mem "self" criteria then Raised TypeError
  else
    let books_as_dicts := map Book.to_dict (dict_values (books l)) in
    search_items books_as_dicts criteria.

End Library.

(* ================================================================= *)
(** ** Sequences of calls, and the vocabulary of the ledger *)

Inductive call : Type :=
| Checkout (book_id borrower_id : string)
| Return (book_id borrower_id : string).

Definition perform (c : call) (w : Library.world) : outcome bool * Library.world :=
  match c with
  | Checkout book_id borrower_id => Library.checkout_book book_id borrower_id w
  | Return book_id borrower_id => Library.return_book book_id borrower_id w
  end.

(** The state after a sequence of calls, whatever each of them answered. *)
Definition run (calls : list call) (w : Library.world) : Library.world :=
  fold_left (fun w c => snd (perform c w)) calls w.

(** The calls of the whole interface, and a session of them. *)
Inductive api_call : Type :=
| Add_book (title author genre : string)
| Add_borrower (name email : string)
| Ledger (c : call).

Definition api_perform (c : api_call) (w : Library.world) : Library.world :=
  match c with
  | Add_book title author genre => snd (Library.add_book title author genre w)
  | Add_borrower name email => snd (Library.add_borrower name email w)
  | Ledger c => snd (perform c w)
  end.

Definition api_run (calls : list api_call) (w : Library.world) : Library.world :=
  fold_left (fun w c => api_perform c w) calls w.

(** The registry a new [Library] starts from when neither file exists. *)
Definition new_world (name books_file borrowers_file : string) : Library.world :=
  Library.mk_world (Library.mk name [] [] books_file borrowers_file) [].




(** The borrower registered under [borrower_id] lists [book_id]. *)
Definition holds (l : Library.t) (borrower_id book_id : string) : Prop :=
  exists br,
    dict_get borrower_id (Library.borrowers l) = Some br
    /\ In book_id (Borrower.borrowed_books br).

(** A book is unavailable exactly when some borrower lists it, and no two
    borrowers list the same book. *)
Definition ledger_invariant (l : Library.t) : Prop :=
  forall k b,
    dict_get k (Library.books l) = Some b ->
    (Book.available b = false <-> exists u, holds l u (Book.book_id b))
    /\ (forall u1 u2,
          holds l u1 (Book.book_id b) -> holds l u2 (Book.book_id b) -> u1 = u2).

(** Every book is registered under its own identifier. *)
Definition keyed_by_id (l : Library.t) : Prop :=
  forall k b, dict_get k (Library.books l) = Some b -> Book.book_id b = k.

(** No borrower lists a book twice. *)
Definition listed_once (l : Library.t) : Prop :=
  forall u br,
    dict_get u (Library.borrowers l) = Some br ->
    NoDup (Borrower.borrowed_books br).

(** A consistent registry: well formed as above, and the ledger invariant
    holds. *)
Definition consistent (l : Library.t) : Prop :=
  keyed_by_id l /\ listed_once l /\ ledger_invariant l.

Definition within_limit (l : Library.t) : Prop :=
  forall u br,
    dict_get u (Library.borrowers l) = Some br ->
    (List.length (Borrower.borrowed_books br) <= Borrower.MAX_BOOKS)%nat.

(** Every book a borrower lists is registered. *)
Definition registered_only (l : Library.t) : Prop :=
  forall u br x,
    dict_get u (Library.borrowers l) = Some br ->
    In x (Borrower.borrowed_books br) ->
    dict_mem x (Library.books l) = true.

(** What every session keeps. *)
Definition well_kept (l : Library.t) : Prop :=
  consistent l /\ registered_only l /\ within_limit l.

(** Executable checks of the same, for registries given in full. *)
Fixpoint nodupb (l : list string) : bool :=
  match l with
  | [] => true
  | x :: l' => negb (list_contains x l') && nodupb l'
  end.

Definition holders (l : Library.t) (book_id : string) : dict Borrower.t :=
  filter (fun ubr => list_contains book_id (Borrower.borrowed_books (snd ubr)))
         (Library.borrowers l).

Definition ledger_invariantb (l : Library.t) : bool :=
  nodupb (dict_keys (Library.borrowers l))
  && forallb (fun kb =>
                let n := List.length (holders l (Book.book_id (snd kb))) in
                if Book.available (snd kb) then (n =? 0)%nat else (n =? 1)%nat)
             (Library.books l).

Definition consistentb (l : Library.t) : bool :=
  forallb (fun kb => String.eqb (Book.book_id (snd kb)) (fst kb)) (Library.books l)
  && forallb (fun ubr => nodupb (Borrower.borrowed_books (snd ubr)))
             (Library.borrowers l)
  && ledger_invariantb l.

Definition within_limitb (l : Library.t) : bool :=
  forallb (fun ubr =>
             (List.length (Borrower.borrowed_books (snd ubr))
              <=? Borrower.MAX_BOOKS)%nat)
          (Library.borrowers l).

(** The registry after a checkout of book [b], registered as [k], by borrower
    [br], registered as [u]; and after its return. *)
Definition lent (k u : string) (b : Book.t) (br : Borrower.t) (l : Library.t)
  : Library.t :=
  Library.mk (Library.name l)
    (dict_set k (Book.set_available false b) (Library.books l))
    (dict_set u
       (Borrower.set_borrowed_books (Borrower.borrowed_books br ++ [k]) br)
       (Library.borrowers l))
    (Library.books_file l) (Library.borrowers_file l).

Definition returned (k u : string) (b : Book.t) (br : Borrower.t) (l : Library.t)
  : Library.t :=
  Library.mk (Library.name l)
    (dict_set k (Book.set_available true b) (Library.books l))
    (dict_set u
       (Borrower.set_borrowed_books
          (list_remove k (Borrower.borrowed_books br)) br)
       (Library.borrowers l))
    (Library.books_file l) (Library.borrowers_file l).

(* ================================================================= *)
(** ** The vocabulary of the search *)

(** A record's value matches a wanted one: two strings, when they are equal
    once lowercased; any other pair, when [==] says so. *)
Definition values_matchb (item_val wanted : value) : bool :=
  match item_val, wanted with
  | VStr a, VStr b => String.eqb (lower a) (lower b)
  | _, _ => py_eq item_val wanted
  end.

Definition values_match (item_val wanted : value) : Prop :=
  match item_val, wanted with
  | VStr a, VStr b => lower a = lower b
  | _, _ => py_eq item_val wanted = true
  end.

(** Every constrained field is present in the record and matches. *)
Definition satisfies (criteria item : dict value) : Prop :=
  forall key wanted,
    In (key, wanted) criteria ->
    exists item_val,
      dict_get key item = Some item_val /\ values_match item_val wanted.

(** The search as the specification words it: it returns, and what it
    returns are the items that satisfy the criteria. *)
Definition search_as_specified (items : list (dict value))
    (criteria : dict value) : Prop :=
  exists results,
    search_items items criteria = Returned results
    /\ forall item,
         In item results <-> In item items /\ satisfies criteria item.

Definition satisfiesb (criteria item : dict value) : bool :=
  forallb (fun kv =>
             match dict_get (fst kv) item with
             | Some item_val => values_matchb item_val (snd kv)
             | None => false
             end)
          criteria.

(* ================================================================= *)
(** ** The next identifier, as the specification words it *)

(** The number after [prefix_] in [id], when [id] starts so and digits
    follow. *)
Definition numeric_suffix (prefix id : string) : option Z :=
  let head := (prefix ++ "_")%string in
  if String.prefix head id then
    match parse_digits
            (substring (String.length head)
               (String.length id - String.length head) id) with
    | Returned n => Some n
    | Raised _ => None
    end
  else None.

(** One more than the largest numeric suffix among the identifiers of that
    prefix; one when there is none. *)
Definition spec_next_number (prefix : string) (existing_ids : list string) : Z :=
  (fold_right
     (fun id acc =>
        match numeric_suffix prefix id with
        | Some n => Z.max n acc
        | None => acc
        end)
     0 existing_ids + 1)%Z.

Definition is_digit (c : ascii) : bool :=
  let n := nat_of_ascii c in ((48 <=? n) && (n <=? 57))%nat.

Fixpoint all_digits (s : string) : bool :=
  match s with
  | EmptyString => true
  | String c s' => is_digit c && all_digits s'
  end.

(** [id] is [prefix_] followed by exactly four digits. *)
Definition four_digit_id (prefix id : string) : bool :=
  let head := (prefix ++ "_")%string in
  String.prefix head id
  && (String.length id =? String.length head + 4)%nat
  && all_digits (substring (String.length head) 4 id).

(** The call as the specification words it: it returns an identifier of
    four digits after the prefix, whose number is the next one for the
    identifiers of that prefix. *)
Definition generate_id_as_specified (prefix : string)
    (existing_ids : list string) : Prop :=
  exists id,
    generate_id prefix existing_ids = Returned id
    /\ four_digit_id prefix id = true
    /\ numeric_suffix prefix id = Some (spec_next_number prefix existing_ids).

(** No underscore in [s]. *)
Fixpoint no_underscore (s : string) : bool :=
  match s with
  | EmptyString => true
  | String c s' => negb (Ascii.eqb c "_"%char) && no_underscore s'
  end.

(* ================================================================= *)
(** ** A small registry to run the model on

    Two books on the shelf, three lent to the second borrower, who is at
    the limit; the first borrower holds nothing. *)

Definition sample_books : dict Book.t :=
  [ ("BOOK_0001", Book.mk "BOOK_0001" "A" "X" "Fiction" true);
    ("BOOK_0002", Book.mk "BOOK_0002" "B" "Y" "Science" true);
    ("BOOK_0003", Book.mk "BOOK_0003" "C" "Z" "History" false);
    ("BOOK_0004", Book.mk "BOOK_0004" "D" "Z" "History" false);
    ("BOOK_0005", Book.mk "BOOK_0005" "E" "Z" "Technology" false) ].

Definition sample_borrowers : dict Borrower.t :=
  [ ("USER_0001", Borrower.mk "USER_0001" "Joe" "j@x.com" []);
    ("USER_0002",
     Borrower.mk "USER_0002" "Ann" "a@x.com"
       ["BOOK_0003"; "BOOK_0004"; "BOOK_0005"]) ].

Definition sample_library : Library.t :=
  Library.mk "Demo" sample_books sample_borrowers
    "./library_books.json" "./library_borrowers.json".

Definition sample_world : Library.world :=
  Library.mk_world sample_library [].

(** A registry as two hand-written documents can load it: the book is on
    the shelf although the borrower lists it. *)
Definition stale_world : Library.world :=
  Library.mk_world
    (Library.mk "Demo"
       [ ("BOOK_0001", Book.mk "BOOK_0001" "A" "X" "Fiction" true) ]
       [ ("USER_0001",
          Borrower.mk "USER_0001" "Joe" "j@x.com" ["BOOK_0001"; "BOOK_0002"]) ]
       "./library_books.json" "./library_borrowers.json")
    [].

(** A registry in which a borrower lists the same book twice. *)
Definition twice_listed_world : Library.world :=
  Library.mk_world
    (Library.mk "Demo"
       [ ("BOOK_0001", Book.mk "BOOK_0001" "A" "X" "Fiction" false) ]
       [ ("USER_0001",
          Borrower.mk "USER_0001" "Joe" "j@x.com" ["BOOK_0001"; "BOOK_0001"]) ]
       "./library_books.json" "./library_borrowers.json")
    [].

(** The round trip with the borrower's list compared in its order: after a
    successful checkout the return of the same pair succeeds, and the book
    and the borrower are what they were, entry by entry. *)
Definition round_trip_restores (k u : string) (w : Library.world) : Prop :=
  forall w1,
    Library.checkout_book k u w = (Returned true, w1) ->
    exists w2,
      Library.return_book k u w1 = (Returned true, w2)
      /\ dict_get k (Library.books (Library.self w2))
         = dict_get k (Library.books (Library.self w))
      /\ dict_get u (Library.borrowers (Library.self w2))
         = dict_get u (Library.borrowers (Library.self w)).

(* ================================================================= *)
(** ** The vocabulary of persistence *)

(** The documents [save] writes. *)
Definition books_document (l : Library.t) : Library.document :=
  dict_comprehension Book.to_dict (Library.books l).

Definition borrowers_document (l : Library.t) : Library.document :=
  dict_comprehension Borrower.to_dict (Library.borrowers l).

(** Keys occur once (as in every Python dictionary), every genre is one of
    [GENRES] (as the constructor leaves it), and the two files differ. *)
Definition storable (l : Library.t) : Prop :=
  NoDup (dict_keys (Library.books l))
  /\ NoDup (dict_keys (Library.borrowers l))
  /\ (forall b, In b (dict_values (Library.books l)) ->
                In (Book.genre b) Book.GENRES)
  /\ Library.books_file l <> Library.borrowers_file l.

Definition storableb (l : Library.t) : bool :=
  nodupb (dict_keys (Library.books l))
  && nodupb (dict_keys (Library.borrowers l))
  && forallb (fun b => list_contains (Book.genre b) Book.GENRES)
             (dict_values (Library.books l))
  && negb (String.eqb (Library.books_file l) (Library.borrowers_file l)).




(** The keys [Book.from_dict] subscripts. *)
Definition book_keys : list string :=
  ["book_id"; "title"; "author"; "genre"; "available"].

Definition registered_onlyb (l : Library.t) : bool :=
  forallb (fun ubr =>
             forallb (fun x => dict_mem x (Library.books l))
                     (Borrower.borrowed_books (snd ubr)))
          (Library.borrowers l).

(** A directory whose books' document has a second record without most of
    its keys, and one whose borrowers' document names a borrower without
    email. *)
Definition sample_bad_books : dict Library.document :=
  [ ("./library_books.json",
     [ ("BOOK_0001", Book.to_dict (Book.mk "BOOK_0001" "A" "X" "Fiction" true));
       ("BOOK_0002", [ ("book_id", VStr "BOOK_0002"); ("title", VStr "B") ]);
       ("BOOK_0003", Book.to_dict (Book.mk "BOOK_0003" "C" "Z" "History" true)) ]) ].

Definition sample_bad_borrowers : dict Library.document :=
  [ ("./library_books.json",
     [ ("BOOK_0001", Book.to_dict (Book.mk "BOOK_0001" "A" "X" "Fiction" true)) ]);
    ("./library_borrowers.json",
     [ ("USER_0001", [ ("borrower_id", VStr "USER_0001"); ("name", VStr "Joe") ]) ]) ].

(* ================================================================= *)
(** * Properties *)

(** ** Lists of identifiers *)

Section ListFacts.

Lemma list_contains_In (x : string) (l : list string) :
  list_contains x l = true <-> In x l.
Proof.
  induction l as [|y l IH]; simpl.
  - split; [discriminate | tauto].
  - destruct (String.eqb_spec y x) as [->|Hne].
    + split; auto.
    + rewrite IH. split; [tauto|]. intros [H|H]; [contradiction | exact H].
Qed.

Lemma list_contains_false (x : string) (l : list string) :
  list_contains x l = false <-> ~ In x l.
Proof.
  rewrite <- list_contains_In. destruct (list_contains x l); split; congruence.
Qed.

Lemma list_remove_In (x y : string) (l : list string) :
  In y (list_remove x l) -> In y l.
Proof.
  induction l as [|z l IH]; simpl; [tauto|].
  destruct (String.eqb_spec z x); simpl; tauto.
Qed.

Lemma list_remove_other (x y : string) (l : list string) :
  y <> x -> In y l -> In y (list_remove x l).
Proof.
  intros Hne. induction l as [|z l IH]; simpl; [tauto|].
  destruct (String.eqb_spec z x) as [->|Hzx]; simpl.
  - intros [H|H]; [congruence | exact H].
  - tauto.
Qed.

Lemma list_remove_NoDup (x : string) (l : list string) :
  NoDup l -> NoDup (list_remove x l).
Proof.
  induction 1 as [|z l Hz Hl IH]; simpl; [constructor|].
  destruct (String.eqb_spec z x); [exact Hl|].
  constructor; [|exact IH]. intros H. apply Hz. eapply list_remove_In, H.
Qed.

Lemma list_remove_gone (x : string) (l : list string) :
  NoDup l -> ~ In x (list_remove x l).
Proof.
  induction 1 as [|z l Hz Hl IH]; simpl; [tauto|].
  destruct (String.eqb_spec z x) as [->|Hzx]; [exact Hz|].
  simpl. intros [H|H]; [contradiction | exact (IH H)].
Qed.

Lemma list_remove_absent (x : string) (l : list string) :
  ~ In x l -> list_remove x l = l.
Proof.
  induction l as [|z l IH]; simpl; [reflexivity|].
  intros H. destruct (String.eqb_spec z x) as [->|Hzx]; [tauto|].
  f_equal. apply IH. tauto.
Qed.

Lemma list_remove_Permutation (x : string) (l : list string) :
  In x l -> Permutation (x :: list_remove x l) l.
Proof.
  induction l as [|z l IH]; simpl; [tauto|].
  destruct (String.eqb_spec z x) as [->|Hzx]; [reflexivity|].
  intros [H|H]; [contradiction|].
  rewrite perm_swap. constructor. exact (IH H).
Qed.

Lemma list_remove_length (x : string) (l : list string) :
  In x l -> S (List.length (list_remove x l)) = List.length l.
Proof.
  intros H. apply (Permutation_length (list_remove_Permutation x l H)).
Qed.

(** [list.remove] takes out the first occurrence and nothing else. *)
Lemma list_remove_split (x : string) (l : list string) :
  In x l ->
  exists before after,
    l = before ++ x :: after
    /\ ~ In x before
    /\ list_remove x l = before ++ after.
Proof.
  induction l as [|z l IH]; simpl; [tauto|].
  destruct (String.eqb_spec z x) as [->|Hzx].
  - intros _. exists [], l. simpl. tauto.
  - intros [H|H]; [contradiction|].
    destruct (IH H) as (before & after & -> & Hnot & ->).
    exists (z :: before), after. simpl. repeat split; tauto.
Qed.

Lemma list_remove_length_le (x : string) (l : list string) :
  (List.length (list_remove x l) <= List.length l)%nat.
Proof.
  induction l as [|z l IH]; simpl; [lia|].
  destruct (String.eqb z x); simpl; lia.
Qed.

(** Appending then removing: the list comes back when [x] was not in it,
    and in any case up to order. *)
Lemma list_remove_app_new (x : string) (l : list string) :
  ~ In x l -> list_remove x (l ++ [x]) = l.
Proof.
  induction l as [|z l IH]; simpl.
  - rewrite String.eqb_refl. reflexivity.
  - intros H. destruct (String.eqb_spec z x) as [->|Hzx]; [tauto|].
    f_equal. apply IH. tauto.
Qed.

Lemma list_remove_app_Permutation (x : string) (l : list string) :
  Permutation (list_remove x (l ++ [x])) l.
Proof.
  apply Permutation_cons_inv with (a := x).
  rewrite list_remove_Permutation by (apply in_or_app; simpl; auto).
  rewrite Permutation_app_comm. reflexivity.
Qed.

Lemma nodupb_NoDup (l : list string) : nodupb l = true -> NoDup l.
Proof.
  induction l as [|x l IH]; simpl; [constructor|].
  intros H. apply andb_true_iff in H. destruct H as [Hx Hl].
  constructor; [|now apply IH].
  apply list_contains_false. now destruct (list_contains x l).
Qed.

End ListFacts.

(* ================================================================= *)
(** ** Dictionaries *)

Section DictFacts.
Context {V : Type}.
Implicit Types (d : dict V) (k : string) (v : V).

Lemma dict_get_set_eq k v d : dict_get k (dict_set k v d) = Some v.
Proof.
  induction d as [|[k' v'] d IH]; simpl.
  - now rewrite String.eqb_refl.
  - destruct (String.eqb_spec k' k) as [->|Hne]; simpl.
    + now rewrite String.eqb_refl.
    + destruct (String.eqb_spec k' k); [contradiction | exact IH].
Qed.

Lemma dict_get_set_neq k k' v d :
  k' <> k -> dict_get k' (dict_set k v d) = dict_get k' d.
Proof.
  intros Hne. induction d as [|[k0 v0] d IH]; simpl.
  - destruct (String.eqb_spec k k'); [congruence | reflexivity].
  - destruct (String.eqb_spec k0 k) as [->|Hk]; simpl.
    + destruct (String.eqb_spec k k'); [congruence | reflexivity].
    + destruct (String.eqb_spec k0 k'); [reflexivity | exact IH].
Qed.

Lemma dict_set_same k v d : dict_get k d = Some v -> dict_set k v d = d.
Proof.
  induction d as [|[k0 v0] d IH]; simpl; [discriminate|].
  destruct (String.eqb_spec k0 k) as [->|Hk].
  - now intros [= ->].
  - intros H. now rewrite IH.
Qed.

Lemma dict_set_set k v1 v2 d :
  dict_set k v2 (dict_set k v1 d) = dict_set k v2 d.
Proof.
  induction d as [|[k0 v0] d IH]; simpl.
  - now rewrite String.eqb_refl.
  - destruct (String.eqb_spec k0 k) as [->|Hk]; simpl.
    + now rewrite String.eqb_refl.
    + destruct (String.eqb_spec k0 k); [contradiction | now rewrite IH].
Qed.

(** Assigning to a key that is present leaves the keys and their order. *)
Lemma dict_keys_set k v v0 d :
  dict_get k d = Some v0 -> dict_keys (dict_set k v d) = dict_keys d.
Proof.
  unfold dict_keys.
  induction d as [|[k0 v1] d IH]; simpl; [discriminate|].
  destruct (String.eqb_spec k0 k) as [->|Hk]; simpl; [reflexivity|].
  intros H. now rewrite IH.
Qed.

Lemma dict_mem_get k d :
  dict_mem k d = true <-> exists v, dict_get k d = Some v.
Proof.
  unfold dict_mem. destruct (dict_get k d) as [v|].
  - split; eauto.
  - split; [discriminate | intros [v Hv]; discriminate].
Qed.

Lemma dict_get_In k v d : dict_get k d = Some v -> In (k, v) d.
Proof.
  induction d as [|[k0 v0] d IH]; simpl; [discriminate|].
  destruct (String.eqb_spec k0 k) as [->|Hk].
  - intros [= ->]. now left.
  - intros H. right. exact (IH H).
Qed.

Lemma In_dict_get k v d :
  NoDup (dict_keys d) -> In (k, v) d -> dict_get k d = Some v.
Proof.
  unfold dict_keys.
  induction d as [|[k0 v0] d IH]; simpl; [tauto|].
  intros Hnd [[= -> ->]|Hin].
  - now rewrite String.eqb_refl.
  - inversion Hnd as [|? ? Hk0 Hnd']; subst.
    destruct (String.eqb_spec k0 k) as [->|Hk]; [|now apply IH].
    elim Hk0. apply (in_map fst) in Hin. exact Hin.
Qed.

End DictFacts.

(* ================================================================= *)
(** ** What one call does *)

Section Transitions.
Import Library.
Implicit Types (w : world) (l : Library.t) (k u : string).

Lemma save_self w : self (save w) = self w.
Proof. reflexivity. Qed.

(** [checkout_book] by cases on what the two lookups find. *)
Lemma checkout_book_cases k u w :
  match dict_get k (books (self w)), dict_get u (borrowers (self w)) with
  | Some b, Some br =>
      if Book.available b && Borrower.can_borrow br
      then checkout_book k u w
           = (Returned true, save (mk_world (lent k u b br (self w)) (files w)))
      else checkout_book k u w = (Returned false, w)
  | _, _ => checkout_book k u w = (Returned false, w)
  end.
Proof.
  unfold checkout_book, dict_mem, dict_getitem, Borrower.borrow_book.
  destruct (dict_get k (books (self w))) as [b|]; simpl; [|reflexivity].
  destruct (dict_get u (borrowers (self w))) as [br|]; simpl; [|reflexivity].
  destruct (Book.available b); simpl; [|reflexivity].
  destruct (Borrower.can_borrow br); reflexivity.
Qed.

(** [return_book] by cases likewise. *)
Lemma return_book_cases k u w :
  match dict_get k (books (self w)), dict_get u (borrowers (self w)) with
  | Some b, Some br =>
      if list_contains k (Borrower.borrowed_books br)
      then return_book k u w
           = (Returned true, save (mk_world (returned k u b br (self w)) (files w)))
      else return_book k u w = (Returned false, w)
  | _, _ => return_book k u w = (Returned false, w)
  end.
Proof.
  unfold return_book, dict_mem, dict_getitem, Borrower.return_book.
  destruct (dict_get k (books (self w))) as [b|]; simpl; [|reflexivity].
  destruct (dict_get u (borrowers (self w))) as [br|]; simpl; [|reflexivity].
  destruct (list_contains k (Borrower.borrowed_books br)); reflexivity.
Qed.

End Transitions.

Section Inversion.
Import Library.
Implicit Types (w : world) (l : Library.t) (k u : string).

Lemma can_borrow_lt (br : Borrower.t) :
  Borrower.can_borrow br = true
  <-> (List.length (Borrower.borrowed_books br) < Borrower.MAX_BOOKS)%nat.
Proof. unfold Borrower.can_borrow. apply Nat.ltb_lt. Qed.

Lemma checkout_book_true k u w w' :
  checkout_book k u w = (Returned true, w') ->
  exists b br,
    dict_get k (books (self w)) = Some b
    /\ dict_get u (borrowers (self w)) = Some br
    /\ Book.available b = true
    /\ Borrower.can_borrow br = true
    /\ w' = save (mk_world (lent k u b br (self w)) (files w)).
Proof.
  pose proof (checkout_book_cases k u w) as H.
  destruct (dict_get k (books (self w))) as [b|];
    [destruct (dict_get u (borrowers (self w))) as [br|]|];
    try (rewrite H; discriminate).
  destruct (Book.available b) eqn:Hb, (Borrower.can_borrow br) eqn:Hc;
    simpl in H; rewrite H; try discriminate.
  intros [= <-]. exists b, br. auto.
Qed.

Lemma return_book_true k u w w' :
  return_book k u w = (Returned true, w') ->
  exists b br,
    dict_get k (books (self w)) = Some b
    /\ dict_get u (borrowers (self w)) = Some br
    /\ In k (Borrower.borrowed_books br)
    /\ w' = save (mk_world (returned k u b br (self w)) (files w)).
Proof.
  pose proof (return_book_cases k u w) as H.
  destruct (dict_get k (books (self w))) as [b|];
    [destruct (dict_get u (borrowers (self w))) as [br|]|];
    try (rewrite H; discriminate).
  destruct (list_contains k (Borrower.borrowed_books br)) eqn:Hc;
    rewrite H; try discriminate.
  intros [= <-]. exists b, br. rewrite <- list_contains_In. auto.
Qed.

(** A call answers [True] with both records rewritten, or [False] with the
    state as it was: it never raises and never rewrites one record only. *)
Lemma checkout_book_all_or_nothing k u w :
  checkout_book k u w = (Returned false, w)
  \/ exists b br,
       dict_get k (books (self w)) = Some b
       /\ dict_get u (borrowers (self w)) = Some br
       /\ Book.available b = true
       /\ Borrower.can_borrow br = true
       /\ checkout_book k u w
          = (Returned true, save (mk_world (lent k u b br (self w)) (files w))).
Proof.
  pose proof (checkout_book_cases k u w) as H.
  destruct (dict_get k (books (self w))) as [b|];
    [destruct (dict_get u (borrowers (self w))) as [br|]|]; auto.
  destruct (Book.available b) eqn:Hb, (Borrower.can_borrow br) eqn:Hc;
    simpl in H; auto.
  right. exists b, br. auto.
Qed.

Lemma return_book_all_or_nothing k u w :
  return_book k u w = (Returned false, w)
  \/ exists b br,
       dict_get k (books (self w)) = Some b
       /\ dict_get u (borrowers (self w)) = Some br
       /\ In k (Borrower.borrowed_books br)
       /\ return_book k u w
          = (Returned true, save (mk_world (returned k u b br (self w)) (files w))).
Proof.
  pose proof (return_book_cases k u w) as H.
  destruct (dict_get k (books (self w))) as [b|];
    [destruct (dict_get u (borrowers (self w))) as [br|]|]; auto.
  destruct (list_contains k (Borrower.borrowed_books br)) eqn:Hc; auto.
  right. exists b, br. rewrite <- list_contains_In. auto.
Qed.

(** The registry after one call: unchanged, lent or returned. *)
Lemma perform_self (c : call) w :
  self (snd (perform c w)) = self w
  \/ (exists k u b br,
        c = Checkout k u
        /\ dict_get k (books (self w)) = Some b
        /\ dict_get u (borrowers (self w)) = Some br
        /\ Book.available b = true
        /\ Borrower.can_borrow br = true
        /\ self (snd (perform c w)) = lent k u b br (self w))
  \/ (exists k u b br,
        c = Return k u
        /\ dict_get k (books (self w)) = Some b
        /\ dict_get u (borrowers (self w)) = Some br
        /\ In k (Borrower.borrowed_books br)
        /\ self (snd (perform c w)) = returned k u b br (self w)).
Proof.
  destruct c as [k u|k u]; simpl.
  - destruct (checkout_book_all_or_nothing k u w) as [H|(b & br & ? & ? & ? & ? & H)];
      rewrite H; [now left|].
    right; left. exists k, u, b, br. auto 10.
  - destruct (return_book_all_or_nothing k u w) as [H|(b & br & ? & ? & ? & H)];
      rewrite H; [now left|].
    right; right. exists k, u, b, br. auto 10.
Qed.

End Inversion.

(* ================================================================= *)
(** ** Checkout and return, one call at a time *)

Section Calls.
Import Library.
Implicit Types (w : world) (l : Library.t) (k u : string).

(** C2.  When the book and the borrower are registered, the book is
    available and the borrower lists fewer than [MAX_BOOKS] books,
    [checkout_book] returns [True], and the state it leaves has both updates:
    the book is unavailable (its other fields kept) and the identifier is
    appended to the borrower's list (the other fields kept). *)
Theorem checkout_book_succeeds k u w (b : Book.t) (br : Borrower.t) :
  dict_get k (books (self w)) = Some b ->
  dict_get u (borrowers (self w)) = Some br ->
  Book.available b = true ->
  (List.length (Borrower.borrowed_books br) < Borrower.MAX_BOOKS)%nat ->
  exists w' b' br',
    checkout_book k u w = (Returned true, w')
    /\ dict_get k (books (self w')) = Some b'
    /\ b' = Book.set_available false b
    /\ Book.available b' = false
    /\ dict_get u (borrowers (self w')) = Some br'
    /\ br' = Borrower.set_borrowed_books (Borrower.borrowed_books br ++ [k]) br
    /\ In k (Borrower.borrowed_books br').
Proof.
  intros Hb Hbr Hav Hlt.
  pose proof (checkout_book_cases k u w) as H.
  rewrite Hb, Hbr, Hav in H.
  apply can_borrow_lt in Hlt. rewrite Hlt in H. simpl in H.
  eexists _, _, _. split; [exact H|].
  rewrite save_self. simpl.
  rewrite !dict_get_set_eq.
  repeat split. apply in_or_app. right. now left.
Qed.

Lemma checkout_book_succeeds_sample :
  exists w' b' br',
    checkout_book "BOOK_0001" "USER_0001" sample_world = (Returned true, w')
    /\ dict_get "BOOK_0001" (books (self w')) = Some b'
    /\ b' = Book.mk "BOOK_0001" "A" "X" "Fiction" false
    /\ Book.available b' = false
    /\ dict_get "USER_0001" (borrowers (self w')) = Some br'
    /\ br' = Borrower.mk "USER_0001" "Joe" "j@x.com" ["BOOK_0001"]
    /\ In "BOOK_0001" (Borrower.borrowed_books br').
Proof.
  exact (checkout_book_succeeds "BOOK_0001" "USER_0001" sample_world
           (Book.mk "BOOK_0001" "A" "X" "Fiction" true)
           (Borrower.mk "USER_0001" "Joe" "j@x.com" [])
           eq_refl eq_refl eq_refl (Nat.lt_0_succ 2)).
Defined.

(** C3.  When the book is unknown, or the borrower is unknown, or the book is
    unavailable, or the borrower already lists [MAX_BOOKS] books (or more),
    [checkout_book] returns [False], raising nothing, and the state, files
    included, is the one it was called in. *)
Theorem checkout_book_refuses k u w :
  dict_get k (books (self w)) = None
  \/ dict_get u (borrowers (self w)) = None
  \/ (exists b, dict_get k (books (self w)) = Some b
                /\ Book.available b = false)
  \/ (exists br, dict_get u (borrowers (self w)) = Some br
                 /\ (Borrower.MAX_BOOKS <= List.length (Borrower.borrowed_books br))%nat) ->
  checkout_book k u w = (Returned false, w).
Proof.
  intros H.
  destruct (checkout_book_all_or_nothing k u w)
    as [Hno|(b & br & Hb & Hbr & Hav & Hcan & _)]; [exact Hno|].
  apply can_borrow_lt in Hcan.
  destruct H as [H|[H|[(b0 & H & Hf)|(br0 & H & Hf)]]]; try congruence.
  assert (br0 = br) by congruence. subst. lia.
Qed.

Lemma checkout_book_refuses_sample :
  checkout_book "BOOK_0001" "USER_0002" sample_world = (Returned false, sample_world)
  /\ checkout_book "BOOK_0003" "USER_0001" sample_world = (Returned false, sample_world)
  /\ checkout_book "BOOK_0009" "USER_0001" sample_world = (Returned false, sample_world)
  /\ checkout_book "BOOK_0001" "USER_0009" sample_world = (Returned false, sample_world).
Proof.
  split; [|split; [|split]].
  - apply (checkout_book_refuses "BOOK_0001" "USER_0002" sample_world).
    right; right; right.
    exists (Borrower.mk "USER_0002" "Ann" "a@x.com"
              ["BOOK_0003"; "BOOK_0004"; "BOOK_0005"]).
    split; [reflexivity | apply le_n].
  - apply (checkout_book_refuses "BOOK_0003" "USER_0001" sample_world).
    right; right; left.
    exists (Book.mk "BOOK_0003" "C" "Z" "History" false).
    split; reflexivity.
  - apply (checkout_book_refuses "BOOK_0009" "USER_0001" sample_world).
    left. reflexivity.
  - apply (checkout_book_refuses "BOOK_0001" "USER_0009" sample_world).
    right; left. reflexivity.
Defined.

(** C5.  [return_book] returns [True] exactly when the book is registered,
    the borrower is registered and the borrower lists the book.  Then the
    state it leaves has both updates: the book is available, its other
    fields kept, and the borrower's list is the one it was with the first
    occurrence of the identifier taken out, the other fields kept; the list
    is one shorter, and the identifier is no longer in it when the list had
    no repetition.  Otherwise it returns [False] and the state, files
    included, is the one it was called in. *)
Theorem return_book_iff_listed k u w :
  (fst (return_book k u w) = Returned true
   <-> exists b br,
         dict_get k (books (self w)) = Some b
         /\ dict_get u (borrowers (self w)) = Some br
         /\ In k (Borrower.borrowed_books br))
  /\ (forall b br,
        dict_get k (books (self w)) = Some b ->
        dict_get u (borrowers (self w)) = Some br ->
        In k (Borrower.borrowed_books br) ->
        exists w' b' br' before after,
          return_book k u w = (Returned true, w')
          /\ dict_get k (books (self w')) = Some b'
          /\ b' = Book.set_available true b
          /\ Book.available b' = true
          /\ Book.book_id b' = Book.book_id b
          /\ Book.title b' = Book.title b
          /\ Book.author b' = Book.author b
          /\ Book.genre b' = Book.genre b
          /\ dict_get u (borrowers (self w')) = Some br'
          /\ br' = Borrower.set_borrowed_books
                     (list_remove k (Borrower.borrowed_books br)) br
          /\ Borrower.borrower_id br' = Borrower.borrower_id br
          /\ Borrower.name br' = Borrower.name br
          /\ Borrower.email br' = Borrower.email br
          /\ Borrower.borrowed_books br = before ++ k :: after
          /\ ~ In k before
          /\ Borrower.borrowed_books br' = before ++ after
          /\ S (List.length (Borrower.borrowed_books br'))
             = List.length (Borrower.borrowed_books br)
          /\ (NoDup (Borrower.borrowed_books br) ->
              ~ In k (Borrower.borrowed_books br')))
  /\ (fst (return_book k u w) <> Returned true ->
      return_book k u w = (Returned false, w)).
Proof.
  split; [|split].
  - split.
    + destruct (return_book k u w) as [r w'] eqn:E. simpl. intros ->.
      apply return_book_true in E.
      destruct E as (b & br & ? & ? & ? & _). eauto.
    + intros (b & br & Hb & Hbr & Hin).
      pose proof (return_book_cases k u w) as H. rewrite Hb, Hbr in H.
      apply list_contains_In in Hin. rewrite Hin in H. now rewrite H.
  - intros b br Hb Hbr Hin.
    pose proof (return_book_cases k u w) as H. rewrite Hb, Hbr in H.
    pose proof Hin as Hc. apply list_contains_In in Hc. rewrite Hc in H.
    destruct (list_remove_split k _ Hin) as (before & after & Hl & Hnot & Hr).
    exists (snd (return_book k u w)),
           (Book.set_available true b),
           (Borrower.set_borrowed_books
              (list_remove k (Borrower.borrowed_books br)) br),
           before, after.
    rewrite H. cbn [snd]. rewrite save_self. cbn [self].
    destruct b as [bid title author genre available].
    destruct br as [uid name email listed].
    cbn [Book.set_available Book.available Book.book_id Book.title Book.author
         Book.genre Borrower.set_borrowed_books Borrower.borrowed_books
         Borrower.borrower_id Borrower.name Borrower.email] in *.
    split; [reflexivity|].
    split; [unfold returned; cbn [books]; apply dict_get_set_eq|].
    do 6 (split; [reflexivity|]).
    split; [unfold returned; cbn [borrowers]; apply dict_get_set_eq|].
    do 4 (split; [reflexivity|]).
    split; [exact Hl|]. split; [exact Hnot|]. split; [exact Hr|].
    split; [now apply list_remove_length | apply list_remove_gone].
  - intros Hne.
    destruct (return_book_all_or_nothing k u w)
      as [H|(b & br & _ & _ & _ & H)]; [exact H|].
    rewrite H in Hne. now elim Hne.
Qed.

(** C10.  A call that returns [True] leaves every book registered under
    another key, and every borrower registered under another key, as they
    were; the keys of both dictionaries, and their order, stay as well. *)
Theorem successful_call_frame k u w w' :
  checkout_book k u w = (Returned true, w')
  \/ return_book k u w = (Returned true, w') ->
  (forall k', k' <> k ->
     dict_get k' (books (self w')) = dict_get k' (books (self w)))
  /\ (forall u', u' <> u ->
        dict_get u' (borrowers (self w')) = dict_get u' (borrowers (self w)))
  /\ dict_keys (books (self w')) = dict_keys (books (self w))
  /\ dict_keys (borrowers (self w')) = dict_keys (borrowers (self w)).
Proof.
  intros [H|H].
  - apply checkout_book_true in H.
    destruct H as (b & br & Hb & Hbr & _ & _ & ->).
    rewrite save_self. simpl. repeat split.
    + intros k' Hk. now apply dict_get_set_neq.
    + intros u' Hu. now apply dict_get_set_neq.
    + eapply dict_keys_set, Hb.
    + eapply dict_keys_set, Hbr.
  - apply return_book_true in H.
    destruct H as (b & br & Hb & Hbr & _ & ->).
    rewrite save_self. simpl. repeat split.
    + intros k' Hk. now apply dict_get_set_neq.
    + intros u' Hu. now apply dict_get_set_neq.
    + eapply dict_keys_set, Hb.
    + eapply dict_keys_set, Hbr.
Qed.

Lemma successful_call_frame_sample :
  (forall k', k' <> "BOOK_0001" ->
     dict_get k'
       (books (self (snd (checkout_book "BOOK_0001" "USER_0001" sample_world))))
     = dict_get k' sample_books)
  /\ (forall u', u' <> "USER_0001" ->
        dict_get u'
          (borrowers
             (self (snd (checkout_book "BOOK_0001" "USER_0001" sample_world))))
        = dict_get u' sample_borrowers)
  /\ dict_keys
       (books (self (snd (checkout_book "BOOK_0001" "USER_0001" sample_world))))
     = dict_keys sample_books
  /\ dict_keys
       (borrowers
          (self (snd (checkout_book "BOOK_0001" "USER_0001" sample_world))))
     = dict_keys sample_borrowers.
Proof.
  exact (successful_call_frame "BOOK_0001" "USER_0001" sample_world _
           (or_introl eq_refl)).
Defined.

Lemma set_available_same (b : Book.t) v :
  Book.available b = v -> Book.set_available v b = b.
Proof. destruct b; simpl. now intros ->. Qed.

Lemma set_borrowed_books_same (br : Borrower.t) :
  Borrower.set_borrowed_books (Borrower.borrowed_books br) br = br.
Proof. now destruct br. Qed.

(** A successful checkout in a consistent registry is of a book the borrower
    does not list yet. *)
Lemma consistent_available_not_listed l k u (b : Book.t) (br : Borrower.t) :
  consistent l ->
  dict_get k (books l) = Some b ->
  dict_get u (borrowers l) = Some br ->
  Book.available b = true ->
  ~ In k (Borrower.borrowed_books br).
Proof.
  intros (Hkey & _ & Hinv) Hb Hbr Hav Hin.
  destruct (Hinv k b Hb) as [[_ Hheld] _].
  rewrite (Hkey k b Hb) in Hheld.
  rewrite Hheld in Hav; [discriminate|].
  exists u, br. auto.
Qed.

Lemma lent_get_book l k u (b : Book.t) (br : Borrower.t) :
  dict_get k (books (lent k u b br l)) = Some (Book.set_available false b).
Proof. apply dict_get_set_eq. Qed.

Lemma lent_get_borrower l k u (b : Book.t) (br : Borrower.t) :
  dict_get u (borrowers (lent k u b br l))
  = Some (Borrower.set_borrowed_books (Borrower.borrowed_books br ++ [k]) br).
Proof. apply dict_get_set_eq. Qed.

(** The registry after a checkout and the return of the same pair. *)
Lemma returned_lent_books l k u (b : Book.t) (br br1 : Borrower.t) :
  dict_get k (books l) = Some b ->
  Book.available b = true ->
  books (returned k u (Book.set_available false b) br1 (lent k u b br l))
  = books l.
Proof.
  intros Hb Hav. unfold returned, lent. cbn [books].
  rewrite dict_set_set. apply dict_set_same. rewrite Hb. f_equal.
  destruct b; simpl in *. now subst.
Qed.

Lemma returned_lent_borrowers l k u (b b1 : Book.t) (br : Borrower.t) :
  borrowers
    (returned k u b1
       (Borrower.set_borrowed_books (Borrower.borrowed_books br ++ [k]) br)
       (lent k u b br l))
  = dict_set u
      (Borrower.set_borrowed_books
         (list_remove k (Borrower.borrowed_books br ++ [k])) br)
      (borrowers l).
Proof.
  unfold returned, lent. cbn [borrowers]. now rewrite dict_set_set.
Qed.

Lemma returned_lent_fresh l k u (b : Book.t) (br : Borrower.t) :
  dict_get k (books l) = Some b ->
  dict_get u (borrowers l) = Some br ->
  Book.available b = true ->
  ~ In k (Borrower.borrowed_books br) ->
  returned k u (Book.set_available false b)
    (Borrower.set_borrowed_books (Borrower.borrowed_books br ++ [k]) br)
    (lent k u b br l)
  = l.
Proof.
  intros Hb Hbr Hav Hnew.
  pose proof (returned_lent_books l k u b br
                (Borrower.set_borrowed_books
                   (Borrower.borrowed_books br ++ [k]) br) Hb Hav) as H1.
  pose proof (returned_lent_borrowers l k u b (Book.set_available false b) br)
    as H2.
  rewrite (list_remove_app_new k _ Hnew), set_borrowed_books_same in H2.
  rewrite (dict_set_same _ _ _ Hbr) in H2.
  revert H1 H2. unfold returned at 1 2 3.
  cbn [books borrowers name books_file borrowers_file lent].
  intros -> ->. now destruct l.
Qed.

(** C6.  After a checkout that returned [True], the return of the same pair
    returns [True] and restores both: the book is what it was, and so is
    the borrower, whose list, the set of held books of the specification,
    holds the same identifiers.  When the borrower did not list the book
    before the checkout, as in every consistent registry, the list is in the
    same order too and the whole registry is what it was. *)
Theorem checkout_then_return k u w w1 :
  checkout_book k u w = (Returned true, w1) ->
  exists w2 b br br2,
    return_book k u w1 = (Returned true, w2)
    /\ dict_get k (books (self w)) = Some b
    /\ dict_get k (books (self w2)) = Some b
    /\ books (self w2) = books (self w)
    /\ dict_get u (borrowers (self w)) = Some br
    /\ dict_get u (borrowers (self w2)) = Some br2
    /\ Borrower.borrower_id br2 = Borrower.borrower_id br
    /\ Borrower.name br2 = Borrower.name br
    /\ Borrower.email br2 = Borrower.email br
    /\ Permutation (Borrower.borrowed_books br2) (Borrower.borrowed_books br)
    /\ (~ In k (Borrower.borrowed_books br) -> self w2 = self w)
    /\ (consistent (self w) -> self w2 = self w).
Proof.
  intros H. apply checkout_book_true in H.
  destruct H as (b & br & Hb & Hbr & Hav & Hcan & ->).
  pose proof (return_book_cases k u
                (save (mk_world (lent k u b br (self w)) (files w)))) as H.
  rewrite !save_self in H. cbn [self] in H.
  rewrite lent_get_book, lent_get_borrower in H.
  cbn [Borrower.borrowed_books Borrower.set_borrowed_books] in H.
  assert (Hc : list_contains k (Borrower.borrowed_books br ++ [k]) = true).
  { apply list_contains_In, in_or_app. right. now left. }
  rewrite Hc in H.
  eexists _, b, br, _. split; [exact H|].
  rewrite save_self. cbn [self].
  rewrite returned_lent_books, returned_lent_borrowers by assumption.
  rewrite dict_get_set_eq.
  repeat split; auto.
  - apply list_remove_app_Permutation.
  - intros Hnew. now apply returned_lent_fresh.
  - intros Hcons. apply returned_lent_fresh; auto.
    eapply consistent_available_not_listed; eauto.
Qed.

Lemma checkout_then_return_sample :
  exists w2 b br br2,
    return_book "BOOK_0001" "USER_0001"
      (snd (checkout_book "BOOK_0001" "USER_0001" sample_world))
    = (Returned true, w2)
    /\ dict_get "BOOK_0001" sample_books = Some b
    /\ dict_get "BOOK_0001" (books (self w2)) = Some b
    /\ books (self w2) = sample_books
    /\ dict_get "USER_0001" sample_borrowers = Some br
    /\ dict_get "USER_0001" (borrowers (self w2)) = Some br2
    /\ Borrower.borrower_id br2 = Borrower.borrower_id br
    /\ Borrower.name br2 = Borrower.name br
    /\ Borrower.email br2 = Borrower.email br
    /\ Permutation (Borrower.borrowed_books br2) (Borrower.borrowed_books br)
    /\ (~ In "BOOK_0001" (Borrower.borrowed_books br) -> self w2 = sample_library)
    /\ (consistent sample_library -> self w2 = sample_library).
Proof.
  exact (checkout_then_return "BOOK_0001" "USER_0001" sample_world _ eq_refl).
Defined.

(** The order of the list is another matter, outside the consistent
    registries: where the borrower already lists the book that is on the
    shelf, the checkout appends a second entry, the return removes the
    first, and the list comes back with the same identifiers in another
    order. *)
Lemma round_trip_reorders_stale_list :
  ~ round_trip_restores "BOOK_0001" "USER_0001" stale_world.
Proof.
  intros H. destruct (H _ eq_refl) as (w2 & Hret & _ & Hbr).
  vm_compute in Hret. injection Hret as <-.
  vm_compute in Hbr. discriminate Hbr.
Qed.

End Calls.

(* ================================================================= *)
(** ** Invariants of the ledger *)

Section Invariants.
Import Library.
Implicit Types (w : world) (l : Library.t) (k u x : string).

Lemma run_cons (c : call) (calls : list call) w :
  run (c :: calls) w = run calls (snd (perform c w)).
Proof. reflexivity. Qed.

(** *** The borrowing limit *)

Lemma within_limit_lent l k u (b : Book.t) (br : Borrower.t) :
  within_limit l ->
  Borrower.can_borrow br = true ->
  within_limit (lent k u b br l).
Proof.
  intros Hlim Hcan u' br'. unfold lent. cbn [borrowers].
  destruct (String.eqb_spec u' u) as [->|Hne].
  - rewrite dict_get_set_eq. intros [= <-]. simpl.
    apply can_borrow_lt in Hcan. rewrite length_app. simpl. lia.
  - rewrite dict_get_set_neq by assumption. apply Hlim.
Qed.

Lemma within_limit_returned l k u (b : Book.t) (br : Borrower.t) :
  within_limit l ->
  dict_get u (borrowers l) = Some br ->
  within_limit (returned k u b br l).
Proof.
  intros Hlim Hbr u' br'. unfold returned. cbn [borrowers].
  destruct (String.eqb_spec u' u) as [->|Hne].
  - rewrite dict_get_set_eq. intros [= <-]. simpl.
    pose proof (list_remove_length_le k (Borrower.borrowed_books br)).
    pose proof (Hlim u br Hbr). lia.
  - rewrite dict_get_set_neq by assumption. apply Hlim.
Qed.

Lemma within_limit_perform (c : call) w :
  within_limit (self w) -> within_limit (self (snd (perform c w))).
Proof.
  intros Hlim.
  destruct (perform_self c w)
    as [->|[(k & u & b & br & _ & _ & _ & _ & Hcan & ->)
           |(k & u & b & br & _ & _ & Hbr & _ & ->)]].
  - exact Hlim.
  - now apply within_limit_lent.
  - now apply within_limit_returned.
Qed.

(** C4.  From a state in which every borrower lists at most [MAX_BOOKS]
    books, every sequence of [checkout_book] and [return_book] calls leads to
    a state in which every borrower lists at most [MAX_BOOKS] books. *)
Theorem borrowing_limit_kept (calls : list call) w :
  within_limit (self w) ->
  forall u br,
    dict_get u (borrowers (self (run calls w))) = Some br ->
    (List.length (Borrower.borrowed_books br) <= 3)%nat.
Proof.
  revert w. induction calls as [|c calls IH]; intros w Hlim.
  - exact Hlim.
  - rewrite run_cons. apply IH, within_limit_perform, Hlim.
Qed.

(** *** Who holds what *)

Lemma holds_lent l k u (b : Book.t) (br : Borrower.t) u' x :
  dict_get u (borrowers l) = Some br ->
  holds (lent k u b br l) u' x <-> holds l u' x \/ (u' = u /\ x = k).
Proof.
  intros Hbr. unfold holds, lent. cbn [borrowers].
  destruct (String.eqb_spec u' u) as [->|Hne].
  - rewrite dict_get_set_eq. split.
    + intros (br' & [= <-] & Hin). simpl in Hin.
      apply in_app_or in Hin. destruct Hin as [Hin|[<-|[]]]; eauto.
    + intros [(br' & Hbr' & Hin)|[_ ->]]; eexists; (split; [reflexivity|]);
        simpl; apply in_or_app.
      * left. congruence.
      * right. now left.
  - rewrite dict_get_set_neq by assumption. split; [auto|].
    intros [H|[H _]]; [exact H | contradiction].
Qed.

Lemma holds_returned l k u (b : Book.t) (br : Borrower.t) u' x :
  dict_get u (borrowers l) = Some br ->
  NoDup (Borrower.borrowed_books br) ->
  holds (returned k u b br l) u' x <-> holds l u' x /\ ~ (u' = u /\ x = k).
Proof.
  intros Hbr Hnd. unfold holds, returned. cbn [borrowers].
  destruct (String.eqb_spec u' u) as [->|Hne].
  - rewrite dict_get_set_eq. split.
    + intros (br' & [= <-] & Hin). simpl in Hin. split.
      * exists br. split; [exact Hbr|]. eapply list_remove_In, Hin.
      * intros [_ ->]. exact (list_remove_gone k _ Hnd Hin).
    + intros [(br' & Hbr' & Hin) Hno].
      eexists. split; [reflexivity|]. simpl.
      assert (br' = br) by congruence. subst br'.
      apply list_remove_other; [|exact Hin].
      intros ->. apply Hno. auto.
  - rewrite dict_get_set_neq by assumption. split; [|tauto].
    intros H. split; [exact H|]. intros [H' _]. contradiction.
Qed.

(** *** Consistency is kept by one call *)

Lemma consistent_lent l k u (b : Book.t) (br : Borrower.t) :
  consistent l ->
  dict_get k (books l) = Some b ->
  dict_get u (borrowers l) = Some br ->
  Book.available b = true ->
  consistent (lent k u b br l).
Proof.
  intros Hcons Hb Hbr Hav.
  pose proof (consistent_available_not_listed l k u b br Hcons Hb Hbr Hav) as Hnew.
  destruct Hcons as (Hkey & Hone & Hinv).
  assert (Hfree : forall u', ~ holds l u' k).
  { intros u' Hh. destruct (Hinv k b Hb) as [[_ Hheld] _].
    rewrite (Hkey k b Hb) in Hheld.
    rewrite Hheld in Hav by eauto. discriminate. }
  split; [|split].
  - intros k' b'. unfold lent. cbn [books].
    destruct (String.eqb_spec k' k) as [->|Hne].
    + rewrite dict_get_set_eq. intros [= <-]. simpl. now apply Hkey.
    + rewrite dict_get_set_neq by assumption. apply Hkey.
  - intros u' br'. unfold lent. cbn [borrowers].
    destruct (String.eqb_spec u' u) as [->|Hne].
    + rewrite dict_get_set_eq. intros [= <-]. simpl.
      apply NoDup_app; [now apply (Hone u)| repeat constructor; simpl; tauto |].
      intros x Hx [<-|[]]. exact (Hnew Hx).
    + rewrite dict_get_set_neq by assumption. apply Hone.
  - intros k' b'. unfold lent at 1. cbn [books].
    destruct (String.eqb_spec k' k) as [->|Hne].
    + rewrite dict_get_set_eq. intros [= <-]. simpl.
      rewrite (Hkey k b Hb). split.
      * split; [|reflexivity]. intros _. exists u.
        apply (holds_lent l k u b br u k Hbr). auto.
      * intros u1 u2 H1 H2.
        apply (holds_lent l k u b br _ k Hbr) in H1, H2.
        destruct H1 as [H1|[-> _]]; [elim (Hfree _ H1)|].
        destruct H2 as [H2|[-> _]]; [elim (Hfree _ H2)|]. reflexivity.
    + rewrite dict_get_set_neq by assumption. intros Hb'.
      assert (Hid : Book.book_id b' <> k)
        by (rewrite (Hkey k' b' Hb'); exact Hne).
      assert (Hsame : forall u', holds (lent k u b br l) u' (Book.book_id b')
                                 <-> holds l u' (Book.book_id b')).
      { intros u'. rewrite (holds_lent l k u b br u' _ Hbr). tauto. }
      destruct (Hinv k' b' Hb') as [Hiff Huniq]. split.
      * rewrite Hiff. split; intros [u' Hu']; exists u'; now apply Hsame.
      * intros u1 u2 H1 H2. apply Huniq; now apply Hsame.
Qed.

Lemma consistent_returned l k u (b : Book.t) (br : Borrower.t) :
  consistent l ->
  dict_get k (books l) = Some b ->
  dict_get u (borrowers l) = Some br ->
  In k (Borrower.borrowed_books br) ->
  consistent (returned k u b br l).
Proof.
  intros (Hkey & Hone & Hinv) Hb Hbr Hin.
  pose proof (Hone u br Hbr) as Hnd.
  assert (Hu : holds l u k) by (exists br; auto).
  split; [|split].
  - intros k' b'. unfold returned. cbn [books].
    destruct (String.eqb_spec k' k) as [->|Hne].
    + rewrite dict_get_set_eq. intros [= <-]. simpl. now apply Hkey.
    + rewrite dict_get_set_neq by assumption. apply Hkey.
  - intros u' br'. unfold returned. cbn [borrowers].
    destruct (String.eqb_spec u' u) as [->|Hne].
    + rewrite dict_get_set_eq. intros [= <-]. simpl.
      now apply list_remove_NoDup.
    + rewrite dict_get_set_neq by assumption. apply Hone.
  - intros k' b'. unfold returned at 1. cbn [books].
    destruct (String.eqb_spec k' k) as [->|Hne].
    + rewrite dict_get_set_eq. intros [= <-]. simpl.
      rewrite (Hkey k b Hb).
      assert (Hnone : forall u', ~ holds (returned k u b br l) u' k).
      { intros u' Hh. apply (holds_returned l k u b br u' k Hbr Hnd) in Hh.
        destruct Hh as [Hh Hno]. apply Hno. split; [|reflexivity].
        destruct (Hinv k b Hb) as [_ Huniq].
        rewrite (Hkey k b Hb) in Huniq. now apply Huniq. }
      split.
      * split; [discriminate|]. intros [u' Hu']. elim (Hnone _ Hu').
      * intros u1 u2 H1 _. elim (Hnone _ H1).
    + rewrite dict_get_set_neq by assumption. intros Hb'.
      assert (Hid : Book.book_id b' <> k)
        by (rewrite (Hkey k' b' Hb'); exact Hne).
      assert (Hsame : forall u', holds (returned k u b br l) u' (Book.book_id b')
                                 <-> holds l u' (Book.book_id b')).
      { intros u'. rewrite (holds_returned l k u b br u' _ Hbr Hnd). tauto. }
      destruct (Hinv k' b' Hb') as [Hiff Huniq]. split.
      * rewrite Hiff. split; intros [u' Hu']; exists u'; now apply Hsame.
      * intros u1 u2 H1 H2. apply Huniq; now apply Hsame.
Qed.

Lemma consistent_perform (c : call) w :
  consistent (self w) -> consistent (self (snd (perform c w))).
Proof.
  intros Hcons.
  destruct (perform_self c w)
    as [->|[(k & u & b & br & _ & Hb & Hbr & Hav & _ & ->)
           |(k & u & b & br & _ & Hb & Hbr & Hin & ->)]].
  - exact Hcons.
  - now apply consistent_lent.
  - now apply consistent_returned.
Qed.

(** The registry without books and borrowers is consistent. *)
Lemma consistent_empty (name books_file borrowers_file : string) :
  consistent (Library.mk name [] [] books_file borrowers_file).
Proof.
  split; [|split]; intros k b; simpl; discriminate.
Qed.

(** C1.  In every state reached from a consistent one by a sequence of
    [checkout_book] and [return_book] calls, a registered book is unavailable
    if and only if some borrower lists its [book_id], and the borrowers
    listing it are at most one. *)
Theorem ledger_invariant_kept (calls : list call) w :
  consistent (self w) ->
  forall k b,
    dict_get k (books (self (run calls w))) = Some b ->
    (Book.available b = false
     <-> exists u, holds (self (run calls w)) u (Book.book_id b))
    /\ (forall u1 u2,
          holds (self (run calls w)) u1 (Book.book_id b) ->
          holds (self (run calls w)) u2 (Book.book_id b) ->
          u1 = u2).
Proof.
  intros Hcons.
  assert (Hrun : consistent (self (run calls w))).
  { revert w Hcons. induction calls as [|c calls IH]; intros w Hcons.
    - exact Hcons.
    - rewrite run_cons. apply IH, consistent_perform, Hcons. }
  apply Hrun.
Qed.

(** *** The executable checks are sound *)

Lemma within_limitb_sound l : within_limitb l = true -> within_limit l.
Proof.
  unfold within_limitb. rewrite forallb_forall. intros H u br Hbr.
  apply dict_get_In in Hbr. apply H in Hbr. now apply Nat.leb_le in Hbr.
Qed.

Lemma holds_holders l u x :
  holds l u x -> exists br, In (u, br) (holders l x).
Proof.
  intros (br & Hbr & Hin). exists br. unfold holders.
  apply filter_In. split; [now apply dict_get_In|].
  simpl. now apply list_contains_In.
Qed.

Lemma holders_holds l u br x :
  NoDup (dict_keys (borrowers l)) -> In (u, br) (holders l x) -> holds l u x.
Proof.
  intros Hnd Hin. apply filter_In in Hin. destruct Hin as [Hin Hc].
  exists br. split; [now apply In_dict_get|].
  now apply list_contains_In in Hc.
Qed.

Lemma ledger_invariantb_sound l :
  ledger_invariantb l = true -> ledger_invariant l.
Proof.
  unfold ledger_invariantb. rewrite andb_true_iff, forallb_forall.
  intros [Hnd Hinv]. apply nodupb_NoDup in Hnd.
  intros k b Hb. apply dict_get_In in Hb. apply Hinv in Hb. simpl in Hb.
  destruct (holders l (Book.book_id b)) as [|[u0 br0] [|h hs]] eqn:Hh;
    destruct (Book.available b); simpl in Hb; try discriminate.
  - split.
    + split; [discriminate|]. intros [u Hu].
      apply holds_holders in Hu. rewrite Hh in Hu. now destruct Hu.
    + intros u1 u2 H1 _. apply holds_holders in H1. rewrite Hh in H1.
      now destruct H1.
  - split.
    + split; [|reflexivity]. intros _. exists u0.
      apply (holders_holds l u0 br0 _ Hnd). rewrite Hh. now left.
    + intros u1 u2 H1 H2.
      apply holds_holders in H1, H2. rewrite Hh in H1, H2.
      destruct H1 as [br1 [[= -> _]|[]]], H2 as [br2 [[= -> _]|[]]].
      reflexivity.
Qed.

Lemma consistentb_sound l : consistentb l = true -> consistent l.
Proof.
  unfold consistentb. rewrite !andb_true_iff, !forallb_forall.
  intros [[Hkey Hone] Hinv].
  split; [|split].
  - intros k b Hb. apply dict_get_In in Hb.
    apply Hkey in Hb. now apply String.eqb_eq in Hb.
  - intros u br Hbr. apply dict_get_In in Hbr.
    apply Hone in Hbr. now apply nodupb_NoDup.
  - now apply ledger_invariantb_sound.
Qed.

(** Why a consistent registry lists a book once: the ledger invariant by
    itself is not kept.  With a book listed twice by its holder, the return
    removes one entry, and the book is on the shelf and still listed. *)
Example ledger_invariant_alone_not_kept :
  ledger_invariant (self twice_listed_world)
  /\ keyed_by_id (self twice_listed_world)
  /\ ~ ledger_invariant
         (self (run [Return "BOOK_0001" "USER_0001"] twice_listed_world)).
Proof.
  split; [|split].
  - now apply ledger_invariantb_sound.
  - intros k b Hb. apply dict_get_In in Hb.
    destruct Hb as [[= <- <-]|[]]. reflexivity.
  - intros H.
    destruct (H "BOOK_0001" (Book.mk "BOOK_0001" "A" "X" "Fiction" true) eq_refl)
      as [[_ Hheld] _].
    discriminate Hheld.
    exists "USER_0001", (Borrower.mk "USER_0001" "Joe" "j@x.com" ["BOOK_0001"]).
    split; [reflexivity | now left].
Qed.

(** C1 and C4 on the sample registry: a checkout, a refused fourth
    checkout, a return, and a checkout by the borrower who made room. *)
Lemma ledger_invariant_kept_sample :
  (Book.available (Book.mk "BOOK_0002" "B" "Y" "Science" false) = false
   <-> exists u,
         holds (self (run [ Checkout "BOOK_0001" "USER_0001";
                            Checkout "BOOK_0002" "USER_0002";
                            Return "BOOK_0004" "USER_0002";
                            Checkout "BOOK_0002" "USER_0002" ] sample_world))
               u "BOOK_0002")
  /\ (forall u1 u2,
        holds (self (run [ Checkout "BOOK_0001" "USER_0001";
                           Checkout "BOOK_0002" "USER_0002";
                           Return "BOOK_0004" "USER_0002";
                           Checkout "BOOK_0002" "USER_0002" ] sample_world))
              u1 "BOOK_0002" ->
        holds (self (run [ Checkout "BOOK_0001" "USER_0001";
                           Checkout "BOOK_0002" "USER_0002";
                           Return "BOOK_0004" "USER_0002";
                           Checkout "BOOK_0002" "USER_0002" ] sample_world))
              u2 "BOOK_0002" ->
        u1 = u2).
Proof.
  exact (ledger_invariant_kept
           [ Checkout "BOOK_0001" "USER_0001";
             Checkout "BOOK_0002" "USER_0002";
             Return "BOOK_0004" "USER_0002";
             Checkout "BOOK_0002" "USER_0002" ]
           sample_world
           (consistentb_sound sample_library eq_refl)
           "BOOK_0002" (Book.mk "BOOK_0002" "B" "Y" "Science" false) eq_refl).
Defined.

Lemma borrowing_limit_kept_sample :
  (List.length
     (Borrower.borrowed_books
        (Borrower.mk "USER_0002" "Ann" "a@x.com"
           ["BOOK_0004"; "BOOK_0005"; "BOOK_0001"]))
   <= 3)%nat.
Proof.
  exact (borrowing_limit_kept
           [ Checkout "BOOK_0001" "USER_0002";
             Return "BOOK_0003" "USER_0002";
             Checkout "BOOK_0001" "USER_0002";
             Checkout "BOOK_0002" "USER_0002" ]
           sample_world
           (within_limitb_sound sample_library eq_refl)
           "USER_0002"
           (Borrower.mk "USER_0002" "Ann" "a@x.com"
              ["BOOK_0004"; "BOOK_0005"; "BOOK_0001"])
           eq_refl).
Defined.

End Invariants.

(* ================================================================= *)
(** ** Construction of a book *)

Section BookConstruction.

(** C7.  Constructing a book with a genre outside the five of [GENRES] raises
    [ValueError] and builds nothing; with a genre among them it returns the
    book, whose genre is the one given. *)
Theorem book_init_checks_genre (book_id title author genre : string)
    (available : bool) :
  Book.GENRES = ["Fiction"; "Non-Fiction"; "Science"; "History"; "Technology"]
  /\ (~ In genre Book.GENRES ->
      Book.__init__ book_id title author genre available = Raised ValueError)
  /\ (In genre Book.GENRES ->
      Book.__init__ book_id title author genre available
      = Returned (Book.mk book_id title author genre available))
  /\ (forall b,
        Book.__init__ book_id title author genre available = Returned b ->
        Book.genre b = genre /\ In genre Book.GENRES).
Proof.
  unfold Book.__init__.
  split; [reflexivity|]. split; [|split].
  - intros H. apply list_contains_false in H. now rewrite H.
  - intros H. apply list_contains_In in H. now rewrite H.
  - intros b. destruct (list_contains genre Book.GENRES) eqn:E; cbn [negb];
      [|discriminate].
    intros [= <-]. split; [reflexivity|].
    exact (proj1 (list_contains_In _ _) E).
Qed.

Example book_init_fiction :
  Book.__init__ "BOOK_0001" "A" "X" "Fiction" true
  = Returned (Book.mk "BOOK_0001" "A" "X" "Fiction" true).
Proof. reflexivity. Qed.

(** The comparison is exact: another spelling of a genre is refused too. *)
Example book_init_lowercase_genre :
  Book.__init__ "BOOK_0001" "A" "X" "fiction" true = Raised ValueError.
Proof. reflexivity. Qed.

End BookConstruction.

(* ================================================================= *)
(** ** Search *)

Section Search.
Implicit Types (item criteria : dict value) (items results : list (dict value)).

Lemma values_matchb_spec (item_val wanted : value) :
  values_matchb item_val wanted = true <-> values_match item_val wanted.
Proof.
  destruct item_val, wanted; simpl; try tauto. apply String.eqb_eq.
Qed.

Lemma satisfiesb_spec criteria item :
  satisfiesb criteria item = true <-> satisfies criteria item.
Proof.
  unfold satisfiesb, satisfies. rewrite forallb_forall. split.
  - intros H key wanted Hin. specialize (H _ Hin). simpl in H.
    destruct (dict_get key item) as [v|]; [|discriminate].
    exists v. split; [reflexivity | now apply values_matchb_spec].
  - intros H [key wanted] Hin. simpl.
    destruct (H _ _ Hin) as (v & -> & Hv). now apply values_matchb_spec.
Qed.

(** The inner loop never raises, and answers whether the item satisfies
    the criteria. *)
Lemma criteria_loop_satisfiesb item criteria :
  criteria_loop item criteria = Returned (satisfiesb criteria item).
Proof.
  induction criteria as [|[key wanted] rest IH]; [reflexivity|].
  cbn [criteria_loop]. unfold satisfiesb. cbn [forallb fst snd].
  fold (satisfiesb rest item).
  unfold dict_mem, dict_getitem.
  destruct (dict_get key item) as [item_val|]; cbn [negb bind andb];
    [|reflexivity].
  transitivity (if negb (values_matchb item_val wanted)
                then Returned false else criteria_loop item rest).
  { destruct item_val, wanted; reflexivity. }
  destruct (values_matchb item_val wanted); cbn [negb andb];
    [exact IH | reflexivity].
Qed.

Lemma search_loop_filter items criteria results :
  search_loop items criteria results
  = Returned (results ++ filter (satisfiesb criteria) items).
Proof.
  revert results. induction items as [|item items IH]; intros results; simpl.
  - now rewrite app_nil_r.
  - rewrite criteria_loop_satisfiesb. simpl. rewrite IH.
    destruct (satisfiesb criteria item); [|reflexivity].
    now rewrite <- app_assoc.
Qed.

Lemma search_items_filter items criteria :
  dict_mem "items" criteria = false ->
  search_items items criteria = Returned (filter (satisfiesb criteria) items).
Proof. intros H. unfold search_items. rewrite H. apply search_loop_filter. Qed.

(** Apart from the two keywords the call itself takes ([items], and [self]
    through [search_books]), the search is exact.  For criteria that do not
    constrain a field named [items], [search_items] raises nothing and
    returns, in their order and as often as they occur, exactly the items in
    which every constrained field is present and matches: strings equal once
    lowercased, other values equal by [==].  An item that lacks a
    constrained field is not returned; when no item matches, and so when
    there is no item, the result is the empty list.  [search_books] returns,
    in the order of the registry, exactly the records of the registered
    books that satisfy the criteria, for criteria that do not name [self]
    either. *)
Theorem search_items_exact (l : Library.t) items criteria :
  dict_mem "items" criteria = false ->
  (exists results,
     search_items items criteria = Returned results
     /\ results = filter (satisfiesb criteria) items
     /\ (forall item,
           satisfiesb criteria item = true <-> satisfies criteria item)
     /\ (forall item,
           In item results <-> In item items /\ satisfies criteria item)
     /\ (forall item key wanted,
           In (key, wanted) criteria ->
           dict_get key item = None ->
           ~ In item results)
     /\ ((forall item, In item items -> ~ satisfies criteria item) ->
         results = []))
  /\ search_items [] criteria = Returned []
  /\ (dict_mem "self" criteria = false ->
      exists found,
        Library.search_books l criteria = Returned found
        /\ found = filter (satisfiesb criteria)
                          (map Book.to_dict (dict_values (Library.books l)))
        /\ forall record,
             In record found
             <-> (exists b, In b (dict_values (Library.books l))
                            /\ record = Book.to_dict b)
                 /\ satisfies criteria record).
Proof.
  intros Hitems.
  assert (Hin : forall its item,
             In item (filter (satisfiesb criteria) its)
             <-> In item its /\ satisfies criteria item).
  { intros its item. rewrite filter_In, satisfiesb_spec. tauto. }
  split; [|split].
  - exists (filter (satisfiesb criteria) items).
    split; [now apply search_items_filter|]. split; [reflexivity|].
    split; [intros item; apply satisfiesb_spec|].
    split; [apply Hin|]. split.
    + intros item key wanted Hc Hnone Hitem.
      apply Hin in Hitem. destruct Hitem as [_ Hsat].
      destruct (Hsat _ _ Hc) as (v & Hv & _). congruence.
    + intros Hnone.
      destruct (filter (satisfiesb criteria) items) as [|item rest] eqn:E;
        [reflexivity|].
      assert (Hitem : In item (filter (satisfiesb criteria) items))
        by (rewrite E; now left).
      apply Hin in Hitem. destruct Hitem as [Hitem Hsat].
      elim (Hnone item Hitem Hsat).
  - now rewrite search_items_filter.
  - intros Hself. unfold Library.search_books. rewrite Hself.
    eexists. split; [now apply search_items_filter|].
    split; [reflexivity|].
    intros record. rewrite Hin, in_map_iff.
    split; intros [(b & H1 & H2) Hs]; (split; [exists b|exact Hs]); auto.
Qed.

Lemma search_items_exact_sample :
  (exists results,
     search_items
       [ [("title", VStr "Python 101"); ("author", VStr "Smith")];
         [("title", VStr "Java Guide")];
         [("title", VStr "Python Advanced"); ("author", VStr "Jones")] ]
       [ ("author", VStr "SMITH") ]
     = Returned results
     /\ results
        = filter (satisfiesb [ ("author", VStr "SMITH") ])
            [ [("title", VStr "Python 101"); ("author", VStr "Smith")];
              [("title", VStr "Java Guide")];
              [("title", VStr "Python Advanced"); ("author", VStr "Jones")] ]
     /\ (forall item,
           satisfiesb [ ("author", VStr "SMITH") ] item = true
           <-> satisfies [ ("author", VStr "SMITH") ] item)
     /\ (forall item,
           In item results
           <-> In item
                 [ [("title", VStr "Python 101"); ("author", VStr "Smith")];
                   [("title", VStr "Java Guide")];
                   [("title", VStr "Python Advanced"); ("author", VStr "Jones")] ]
               /\ satisfies [ ("author", VStr "SMITH") ] item)
     /\ (forall item key wanted,
           In (key, wanted) [ ("author", VStr "SMITH") ] ->
           dict_get key item = None ->
           ~ In item results)
     /\ ((forall item,
            In item
              [ [("title", VStr "Python 101"); ("author", VStr "Smith")];
                [("title", VStr "Java Guide")];
                [("title", VStr "Python Advanced"); ("author", VStr "Jones")] ] ->
            ~ satisfies [ ("author", VStr "SMITH") ] item) ->
         results = []))
  /\ search_items [] [ ("author", VStr "SMITH") ] = Returned []
  /\ (dict_mem "self" [ ("author", VStr "SMITH") ] = false ->
      exists found,
        Library.search_books sample_library [ ("author", VStr "SMITH") ]
        = Returned found
        /\ found
           = filter (satisfiesb [ ("author", VStr "SMITH") ])
               (map Book.to_dict (dict_values sample_books))
        /\ forall record,
             In record found
             <-> (exists b, In b (dict_values sample_books)
                            /\ record = Book.to_dict b)
                 /\ satisfies [ ("author", VStr "SMITH") ] record).
Proof.
  exact (search_items_exact sample_library
           [ [("title", VStr "Python 101"); ("author", VStr "Smith")];
             [("title", VStr "Java Guide")];
             [("title", VStr "Python Advanced"); ("author", VStr "Jones")] ]
           [ ("author", VStr "SMITH") ] eq_refl).
Defined.

(** C9.  The search does not take every field name: a constraint on a field
    named [items] clashes with the parameter of [search_items], and the call
    raises [TypeError] where the specification has the empty result, as no
    record has such a field.  Through [search_books(items="x")] the clash is
    inside the method.  A constraint on any other field that no record has,
    [shelf] here, returns the empty list. *)
Theorem search_refuses_items_keyword :
  search_items [] [ ("items", VStr "x") ] = Raised TypeError
  /\ Library.search_books sample_library [ ("items", VStr "x") ]
     = Raised TypeError
  /\ Library.search_books sample_library [ ("shelf", VStr "x") ] = Returned []
  /\ ~ search_as_specified [] [ ("items", VStr "x") ]
  /\ ~ search_as_specified
         (map Book.to_dict (dict_values sample_books)) [ ("items", VStr "x") ].
Proof.
  split; [reflexivity|]. split; [reflexivity|]. split; [reflexivity|].
  split; intros (results & H & _); discriminate H.
Qed.

(** The example of the docstring, with the author in another case. *)
Example search_items_by_author :
  search_items
    [ [("title", VStr "Python 101"); ("author", VStr "Smith")];
      [("title", VStr "Java Guide"); ("author", VStr "Smith")];
      [("title", VStr "Python Advanced"); ("author", VStr "Jones")] ]
    [ ("author", VStr "SMITH") ]
  = Returned
      [ [("title", VStr "Python 101"); ("author", VStr "Smith")];
        [("title", VStr "Java Guide"); ("author", VStr "Smith")] ].
Proof. reflexivity. Qed.

Example search_items_missing_field :
  search_items [ [("title", VStr "Python 101")] ] [ ("author", VStr "Smith") ]
  = Returned [].
Proof. reflexivity. Qed.

Example search_books_available :
  Library.search_books sample_library [ ("available", VBool true) ]
  = Returned
      [ Book.to_dict (Book.mk "BOOK_0001" "A" "X" "Fiction" true);
        Book.to_dict (Book.mk "BOOK_0002" "B" "Y" "Science" true) ].
Proof. reflexivity. Qed.

End Search.

(* ================================================================= *)
(** ** Numerals *)

Section Numerals.
Implicit Types (d : Decimal.uint) (s : string) (n : Z).

Lemma zeros_string_of_uint (k : nat) d :
  (zeros k ++ NilEmpty.string_of_uint d)%string
  = NilEmpty.string_of_uint (Nat.iter k Decimal.D0 d).
Proof. induction k as [|k IH]; simpl; [reflexivity | now rewrite IH]. Qed.

Lemma of_uint_iter_D0 (k : nat) d :
  N.of_uint (Nat.iter k Decimal.D0 d) = N.of_uint d.
Proof. induction k as [|k IH]; simpl; [reflexivity | exact IH]. Qed.

Lemma iter_D0_nonnil (k : nat) d :
  d <> Decimal.Nil -> Nat.iter k Decimal.D0 d <> Decimal.Nil.
Proof. destruct k; simpl; [auto | discriminate]. Qed.

Lemma to_uint_nonnil (m : N) : N.to_uint m <> Decimal.Nil.
Proof.
  destruct m; simpl; [discriminate | apply DecimalPos.Unsigned.to_uint_nonnil].
Qed.

(** The decimal numeral of [m], padded with zeros on the left, as the
    string of a digit sequence. *)
Lemma zfill_decimal (width : nat) (m : N) :
  exists d,
    zfill width (decimal m) = NilEmpty.string_of_uint d
    /\ d <> Decimal.Nil
    /\ N.of_uint d = m.
Proof.
  unfold zfill, decimal.
  set (k := (width - _)%nat).
  exists (Nat.iter k Decimal.D0 (N.to_uint m)).
  pose proof (to_uint_nonnil m) as Hnn.
  split; [|split].
  - rewrite <- zeros_string_of_uint. f_equal.
    unfold NilZero.string_of_uint. now destruct (N.to_uint m).
  - now apply iter_D0_nonnil.
  - rewrite of_uint_iter_D0. apply DecimalN.Unsigned.of_to.
Qed.

(** A string of digits has no white space, no sign and no underscore. *)
Lemma rstrip_string_of_uint d :
  rstrip (NilEmpty.string_of_uint d) = NilEmpty.string_of_uint d.
Proof.
  induction d as [|d IH|d IH|d IH|d IH|d IH|d IH|d IH|d IH|d IH|d IH];
    [reflexivity|..];
    cbn [NilEmpty.string_of_uint rstrip]; rewrite IH;
    now destruct (NilEmpty.string_of_uint d).
Qed.

Lemma lstrip_string_of_uint d :
  lstrip (NilEmpty.string_of_uint d) = NilEmpty.string_of_uint d.
Proof. now destruct d. Qed.

Lemma no_underscore_string_of_uint d :
  no_underscore (NilEmpty.string_of_uint d) = true.
Proof. induction d; simpl; auto. Qed.

Lemma all_digits_string_of_uint d :
  all_digits (NilEmpty.string_of_uint d) = true.
Proof. induction d; simpl; auto. Qed.

Lemma parse_digits_string_of_uint d :
  d <> Decimal.Nil ->
  (String.length (NilEmpty.string_of_uint d) <= int_max_str_digits)%nat ->
  parse_digits (NilEmpty.string_of_uint d) = Returned (Z.of_N (N.of_uint d)).
Proof.
  intros Hd Hlen. unfold parse_digits.
  apply Nat.ltb_ge in Hlen. rewrite Hlen.
  replace (NilEmpty.string_of_uint d) with (NilZero.string_of_uint d)
    by now destruct d.
  now rewrite NilZero.usu.
Qed.

Lemma py_int_string_of_uint d :
  d <> Decimal.Nil ->
  (String.length (NilEmpty.string_of_uint d) <= int_max_str_digits)%nat ->
  py_int (NilEmpty.string_of_uint d) = Returned (Z.of_N (N.of_uint d)).
Proof.
  intros Hd Hlen. unfold py_int, strip.
  rewrite lstrip_string_of_uint, rstrip_string_of_uint.
  rewrite <- (parse_digits_string_of_uint d Hd Hlen).
  now destruct d.
Qed.

Lemma strip_minus_string_of_uint d :
  d <> Decimal.Nil ->
  strip (String "-"%char (NilEmpty.string_of_uint d))
  = String "-"%char (NilEmpty.string_of_uint d).
Proof.
  intros Hd. unfold strip.
  replace (lstrip (String "-"%char (NilEmpty.string_of_uint d)))
    with (String "-"%char (NilEmpty.string_of_uint d)) by reflexivity.
  cbn [rstrip]. rewrite rstrip_string_of_uint.
  destruct (NilEmpty.string_of_uint d) eqn:E; [|reflexivity].
  destruct d; discriminate || congruence.
Qed.

Lemma py_int_minus_string_of_uint d :
  d <> Decimal.Nil ->
  (String.length (NilEmpty.string_of_uint d) <= int_max_str_digits)%nat ->
  py_int (String "-"%char (NilEmpty.string_of_uint d))
  = Returned (- Z.of_N (N.of_uint d))%Z.
Proof.
  intros Hd Hlen. unfold py_int.
  rewrite (strip_minus_string_of_uint d Hd).
  now rewrite (parse_digits_string_of_uint d Hd Hlen).
Qed.

Lemma length_append (s1 s2 : string) :
  String.length (s1 ++ s2)%string = (String.length s1 + String.length s2)%nat.
Proof. induction s1 as [|c s1 IH]; simpl; [reflexivity | now rewrite IH]. Qed.

Lemma length_zfill (width : nat) s :
  String.length (zfill width s) = Nat.max width (String.length s).
Proof.
  unfold zfill.
  assert (Hz : forall k, String.length (zeros k) = k)
    by (induction k; simpl; auto).
  rewrite length_append, Hz. lia.
Qed.

Lemma four_le_limit : (4 <= int_max_str_digits)%nat.
Proof. apply Nat.leb_le. vm_compute. reflexivity. Qed.

(** The format fails exactly beyond the limit of digits. *)
Lemma format_04d_raises n (e : exn) :
  format_04d n = Raised e
  <-> e = ValueError
      /\ (int_max_str_digits < String.length (decimal (Z.abs_N n)))%nat.
Proof.
  unfold format_04d.
  destruct (Nat.ltb_spec int_max_str_digits
              (String.length (decimal (Z.abs_N n)))) as [Hlt|Hle].
  - split; [intros [= <-]; auto | now intros [-> _]].
  - split; [destruct (n <? 0)%Z; discriminate | intros [_ H]; lia].
Qed.

(** What the format writes has four characters at least and no underscore,
    and [int] reads the number back from it. *)
Lemma format_04d_returns n s :
  format_04d n = Returned s ->
  py_int s = Returned n
  /\ no_underscore s = true
  /\ (4 <= String.length s)%nat.
Proof.
  unfold format_04d.
  destruct (Nat.ltb_spec int_max_str_digits
              (String.length (decimal (Z.abs_N n)))) as [Hlt|Hle];
    [discriminate|].
  pose proof four_le_limit as H4.
  destruct (Z.ltb_spec n 0) as [Hneg|Hpos]; intros [= <-].
  - pose proof (length_zfill 3 (decimal (Z.abs_N n))) as Hlen.
    destruct (zfill_decimal 3 (Z.abs_N n)) as (d & Hd & Hnn & Hv).
    rewrite Hd in *. split; [|split].
    + rewrite (py_int_minus_string_of_uint d Hnn) by lia.
      rewrite Hv, N2Z.inj_abs_N. f_equal. lia.
    + simpl. apply no_underscore_string_of_uint.
    + simpl. lia.
  - pose proof (length_zfill 4 (decimal (Z.abs_N n))) as Hlen.
    destruct (zfill_decimal 4 (Z.abs_N n)) as (d & Hd & Hnn & Hv).
    rewrite Hd in *. split; [|split].
    + rewrite (py_int_string_of_uint d Hnn) by lia.
      rewrite Hv, N2Z.inj_abs_N. f_equal. lia.
    + apply no_underscore_string_of_uint.
    + lia.
Qed.

(** From 0 to 9999 the format writes four digits exactly. *)
Lemma four_digits_upto_9999 n :
  (0 <= n <= 9999)%Z ->
  exists s,
    format_04d n = Returned s
    /\ String.length s = 4%nat
    /\ all_digits s = true.
Proof.
  intros Hn.
  assert (Hall :
    forallb (fun i =>
               match format_04d (Z.of_nat i) with
               | Returned s => (String.length s =? 4)%nat && all_digits s
               | Raised _ => false
               end)
            (seq 0 (10 * 10 * 10 * 10)) = true) by (vm_compute; reflexivity).
  rewrite forallb_forall in Hall.
  specialize (Hall (Z.to_nat n)). rewrite Z2Nat.id in Hall by lia.
  assert (Hseq : In (Z.to_nat n) (seq 0 (10 * 10 * 10 * 10)))
    by (apply in_seq; lia).
  specialize (Hall Hseq).
  destruct (format_04d n) as [s|]; [|discriminate].
  apply andb_true_iff in Hall. destruct Hall as [Hlen Hdig].
  exists s. split; [reflexivity|]. split; [now apply Nat.eqb_eq | exact Hdig].
Qed.

End Numerals.

(* ================================================================= *)
(** ** Identifier assignment *)

Section GenerateId.
Implicit Types (prefix id : string) (existing_ids : list string).

Lemma split_no_underscore (s : string) :
  no_underscore s = true -> split "_" s = [s].
Proof.
  induction s as [|c s IH]; simpl; [reflexivity|].
  destruct (Ascii.eqb c "_"); simpl; [discriminate|].
  intros H. now rewrite (IH H).
Qed.

Lemma split_prefix (p s : string) :
  no_underscore p = true ->
  split "_" (p ++ String "_" s)%string = p :: split "_" s.
Proof.
  induction p as [|c p IH]; simpl; [reflexivity|].
  destruct (Ascii.eqb c "_"); simpl; [discriminate|].
  intros H. now rewrite (IH H).
Qed.

(** The code reads the number of an identifier it generated back. *)
Lemma id_number_generated prefix (n : Z) (number : string) :
  no_underscore prefix = true ->
  format_04d n = Returned number ->
  id_number (prefix ++ String "_" number)%string = Returned n.
Proof.
  intros Hp Hfmt. unfold id_number.
  destruct (format_04d_returns n number Hfmt) as (Hint & Hno & _).
  rewrite (split_prefix _ _ Hp), (split_no_underscore _ Hno).
  exact Hint.
Qed.

Lemma fold_left_max (rest : list Z) (n : Z) :
  (fold_left Z.max rest n = n \/ In (fold_left Z.max rest n) rest)
  /\ (n <= fold_left Z.max rest n)%Z
  /\ (forall x, In x rest -> (x <= fold_left Z.max rest n)%Z).
Proof.
  revert n. induction rest as [|y rest IH]; intros n; simpl.
  - split; [now left|]. split; [lia | tauto].
  - destruct (IH (Z.max n y)) as (Hin & Hle & Hall).
    split; [|split].
    + destruct Hin as [Heq|Hin]; [|now right; right].
      rewrite Heq. destruct (Z.max_spec n y) as [[_ ->]|[_ ->]];
        [right; now left | now left].
    + lia.
    + intros x [<-|Hx]; [lia | now apply Hall].
Qed.

Lemma py_max_spec (numbers : list Z) (m : Z) :
  py_max numbers = Returned m ->
  In m numbers /\ forall n, In n numbers -> (n <= m)%Z.
Proof.
  destruct numbers as [|n rest]; simpl; [discriminate|].
  intros [= <-]. destruct (fold_left_max rest n) as (Hin & Hle & Hall).
  split.
  - destruct Hin as [Heq|Hin]; [left; now symmetry | now right].
  - intros x [<-|Hx]; auto.
Qed.

Lemma id_numbers_In existing_ids (numbers : list Z) id :
  id_numbers existing_ids = Returned numbers ->
  In id existing_ids ->
  exists n, id_number id = Returned n /\ In n numbers.
Proof.
  revert numbers. induction existing_ids as [|id0 rest IH]; intros numbers;
    simpl; [tauto|].
  destruct (id_number id0) as [n0|] eqn:E0; simpl; [|discriminate].
  destruct (id_numbers rest) as [ns|]; simpl; [|discriminate].
  intros [= <-] [->|Hin].
  - exists n0. split; [exact E0 | now left].
  - destruct (IH ns eq_refl Hin) as (n & Hn & Hns).
    exists n. split; [exact Hn | now right].
Qed.

(** What the call does when every identifier can be read. *)
Lemma generate_id_formats prefix existing_ids (numbers : list Z) :
  id_numbers existing_ids = Returned numbers ->
  exists next : Z,
    generate_id prefix existing_ids
    = (number <- format_04d next ;; Returned (prefix ++ "_" ++ number)%string)
    /\ ((existing_ids = [] /\ next = 1%Z)
        \/ (existing_ids <> []
            /\ In (next - 1)%Z numbers
            /\ forall n, In n numbers -> (n < next)%Z)).
Proof.
  intros Hnums. destruct existing_ids as [|id0 rest].
  - exists 1%Z. split; [reflexivity | now left].
  - unfold generate_id. rewrite Hnums. cbn [bind].
    destruct (py_max numbers) as [m|e] eqn:Hmax.
    + apply py_max_spec in Hmax. destruct Hmax as [Hin Hall].
      exists (m + 1)%Z. split; [reflexivity|].
      right. split; [discriminate|]. split.
      * now replace (m + 1 - 1)%Z with m by lia.
      * intros n Hn. specialize (Hall n Hn). lia.
    + destruct numbers; [|discriminate].
      simpl in Hnums. destruct (id_number id0); simpl in Hnums;
        [destruct (id_numbers rest)|]; discriminate.
Qed.

(** C8, as the code has it.  When every existing identifier has a second
    piece between underscores that [int] reads, [generate_id] formats a
    number: 1 for the empty list, and otherwise one more than the largest
    number read, over all the identifiers given whatever their prefix.  It
    returns the prefix, an underscore and the number padded with zeros to
    four characters at least, from which [int] reads the number back; from 0
    to 9999 these are four digits exactly.  Beyond the interpreter's limit of
    digits, and only then, the format raises [ValueError] and so does the
    call. *)
Theorem generate_id_next prefix existing_ids (numbers : list Z) :
  id_numbers existing_ids = Returned numbers ->
  exists next : Z,
    ((existing_ids = [] /\ next = 1%Z)
     \/ (existing_ids <> []
         /\ In (next - 1)%Z numbers
         /\ forall n, In n numbers -> (n < next)%Z))
    /\ (forall number,
          format_04d next = Returned number ->
          generate_id prefix existing_ids
          = Returned (prefix ++ "_" ++ number)%string
          /\ py_int number = Returned next
          /\ (4 <= String.length number)%nat)
    /\ ((0 <= next <= 9999)%Z ->
        exists number,
          format_04d next = Returned number
          /\ String.length number = 4%nat
          /\ all_digits number = true)
    /\ ((String.length (decimal (Z.abs_N next)) <= int_max_str_digits)%nat ->
        exists number, format_04d next = Returned number)
    /\ ((int_max_str_digits < String.length (decimal (Z.abs_N next)))%nat ->
        generate_id prefix existing_ids = Raised ValueError).
Proof.
  intros Hnums.
  destruct (generate_id_formats prefix existing_ids numbers Hnums)
    as (next & Hgen & Hnext).
  exists next. split; [exact Hnext|]. split; [|split; [|split]].
  - intros number Hfmt. rewrite Hgen, Hfmt. split; [reflexivity|].
    destruct (format_04d_returns next number Hfmt) as (Hint & _ & Hlen).
    now split.
  - apply four_digits_upto_9999.
  - intros Hle. destruct (format_04d next) as [number|e] eqn:Hfmt; [eauto|].
    apply format_04d_raises in Hfmt. lia.
  - intros Hlt. rewrite Hgen.
    replace (format_04d next) with (@Raised string ValueError); [reflexivity|].
    symmetry. now apply format_04d_raises.
Qed.

Lemma generate_id_next_sample :
  exists next : Z,
    (( ["BOOK_0001"; "BOOK_0007"; "USER_0003"] = [] /\ next = 1%Z)
     \/ ( ["BOOK_0001"; "BOOK_0007"; "USER_0003"] <> []
         /\ In (next - 1)%Z [1; 7; 3]%Z
         /\ forall n, In n [1; 7; 3]%Z -> (n < next)%Z))
    /\ (forall number,
          format_04d next = Returned number ->
          generate_id "BOOK" ["BOOK_0001"; "BOOK_0007"; "USER_0003"]
          = Returned ("BOOK" ++ "_" ++ number)%string
          /\ py_int number = Returned next
          /\ (4 <= String.length number)%nat)
    /\ ((0 <= next <= 9999)%Z ->
        exists number,
          format_04d next = Returned number
          /\ String.length number = 4%nat
          /\ all_digits number = true)
    /\ ((String.length (decimal (Z.abs_N next)) <= int_max_str_digits)%nat ->
        exists number, format_04d next = Returned number)
    /\ ((int_max_str_digits < String.length (decimal (Z.abs_N next)))%nat ->
        generate_id "BOOK" ["BOOK_0001"; "BOOK_0007"; "USER_0003"]
        = Raised ValueError).
Proof.
  exact (generate_id_next "BOOK" ["BOOK_0001"; "BOOK_0007"; "USER_0003"]
           [1; 7; 3]%Z eq_refl).
Defined.

(** When an identifier cannot be read, the call raises what the reading
    raised. *)
Lemma generate_id_raises prefix existing_ids (e : exn) :
  existing_ids <> [] ->
  id_numbers existing_ids = Raised e ->
  generate_id prefix existing_ids = Raised e.
Proof.
  intros Hne He. unfold generate_id. rewrite He.
  now destruct existing_ids.
Qed.

(** C8, as the specification words it, fails on identifiers of another
    prefix, which the code counts too; at 9999, after which five digits are
    written; and on an identifier without underscore, on which the call
    raises. *)
Lemma generate_id_not_as_specified :
  ~ generate_id_as_specified "BOOK" ["USER_0005"]
  /\ ~ generate_id_as_specified "BOOK" ["BOOK_9999"]
  /\ ~ generate_id_as_specified "BOOK" ["BOOK"].
Proof.
  split; [|split]; intros (id & Hid & Hfour & Hnum);
    vm_compute in Hid; try discriminate Hid;
    injection Hid as <-; vm_compute in Hfour, Hnum; discriminate.
Qed.

Example generate_id_other_prefix :
  generate_id "BOOK" ["USER_0005"] = Returned "BOOK_0006".
Proof. reflexivity. Qed.

Example generate_id_fifth_digit :
  generate_id "BOOK" ["BOOK_9999"] = Returned "BOOK_10000".
Proof. reflexivity. Qed.

Example generate_id_docstring :
  generate_id "BOOK" ["BOOK_0001"; "BOOK_0002"] = Returned "BOOK_0003"
  /\ generate_id "USER" [] = Returned "USER_0001".
Proof. split; reflexivity. Qed.

(** The identifier returned is not among the existing ones, for a prefix
    without underscore. *)
Lemma generate_id_fresh prefix existing_ids id :
  no_underscore prefix = true ->
  generate_id prefix existing_ids = Returned id ->
  ~ In id existing_ids.
Proof.
  intros Hp Hgen Hin.
  destruct (id_numbers existing_ids) as [numbers|e] eqn:Hnums.
  - destruct (generate_id_formats prefix existing_ids numbers Hnums)
      as (next & Hret & Hnext).
    rewrite Hret in Hgen.
    destruct (format_04d next) as [number|] eqn:Hfmt; [|discriminate].
    cbn [bind] in Hgen. injection Hgen as <-.
    destruct Hnext as [[-> _]|(_ & _ & Hlt)]; [exact Hin|].
    destruct (id_numbers_In _ _ _ Hnums Hin) as (n & Hn & Hnin).
    change (prefix ++ "_" ++ number)%string
      with (prefix ++ String "_" number)%string in Hn.
    rewrite (id_number_generated prefix next number Hp Hfmt) in Hn.
    injection Hn as <-. specialize (Hlt _ Hnin). lia.
  - destruct existing_ids as [|id0 rest]; [exact Hin|].
    rewrite (generate_id_raises prefix (id0 :: rest) e) in Hgen;
      [discriminate | discriminate | exact Hnums].
Qed.

End GenerateId.

(* ================================================================= *)
(** ** Sessions of the whole interface *)

Section Sessions.
Import Library.
Implicit Types (w : world) (l : Library.t) (k u x : string).

Lemma dict_get_None_keys {V : Type} k (d : dict V) :
  dict_get k d = None <-> ~ In k (dict_keys d).
Proof.
  unfold dict_keys. induction d as [|[k0 v0] d IH]; simpl; [tauto|].
  destruct (String.eqb_spec k0 k) as [->|Hne].
  - split; [discriminate | tauto].
  - rewrite IH. tauto.
Qed.

Lemma dict_mem_set {V : Type} k k' (v : V) (d : dict V) :
  dict_mem k' d = true -> dict_mem k' (dict_set k v d) = true.
Proof.
  unfold dict_mem. destruct (String.eqb_spec k' k) as [->|Hne].
  - now rewrite dict_get_set_eq.
  - now rewrite dict_get_set_neq.
Qed.

Lemma add_book_self (title author genre : string) w :
  self (snd (add_book title author genre w)) = self w
  \/ exists id,
       ~ In id (dict_keys (books (self w)))
       /\ self (snd (add_book title author genre w))
          = set_books
              (dict_set id (Book.mk id title author genre true)
                 (books (self w)))
              (self w).
Proof.
  unfold add_book.
  destruct (generate_id "BOOK" (dict_keys (books (self w)))) as [id|e] eqn:E;
    [|now left].
  unfold Book.__init__.
  destruct (negb (list_contains genre Book.GENRES)); [now left|].
  right. exists id. split; [|reflexivity].
  now apply (generate_id_fresh "BOOK").
Qed.

Lemma add_borrower_self (name email : string) w :
  self (snd (add_borrower name email w)) = self w
  \/ exists id,
       ~ In id (dict_keys (borrowers (self w)))
       /\ self (snd (add_borrower name email w))
          = set_borrowers
              (dict_set id (Borrower.mk id name email [])
                 (borrowers (self w)))
              (self w).
Proof.
  unfold add_borrower.
  destruct (generate_id "USER" (dict_keys (borrowers (self w)))) as [id|e] eqn:E;
    [|now left].
  right. exists id. split; [|reflexivity].
  now apply (generate_id_fresh "USER").
Qed.

Lemma well_kept_add_book l (id : string) (b : Book.t) :
  well_kept l ->
  ~ In id (dict_keys (books l)) ->
  Book.book_id b = id ->
  Book.available b = true ->
  well_kept (set_books (dict_set id b (books l)) l).
Proof.
  intros ((Hkey & Hone & Hinv) & Hreg & Hlim) Hfresh Hid Hav.
  assert (Hfree : forall u', ~ holds l u' id).
  { intros u' (br & Hbr & Hin). apply dict_get_None_keys in Hfresh.
    pose proof (Hreg u' br id Hbr Hin) as Hm.
    unfold dict_mem in Hm. now rewrite Hfresh in Hm. }
  split; [split; [|split]|split].
  - intros k' b'. unfold set_books. cbn [books].
    destruct (String.eqb_spec k' id) as [->|Hne].
    + rewrite dict_get_set_eq. now intros [= <-].
    + rewrite dict_get_set_neq by assumption. apply Hkey.
  - exact Hone.
  - intros k' b'. unfold set_books at 1. cbn [books].
    destruct (String.eqb_spec k' id) as [->|Hne].
    + rewrite dict_get_set_eq. intros [= <-]. rewrite Hid, Hav. split.
      * split; [discriminate|]. intros [u' Hu']. elim (Hfree u' Hu').
      * intros u1 u2 H1 _. elim (Hfree u1 H1).
    + rewrite dict_get_set_neq by assumption. apply Hinv.
  - intros u' br x Hbr Hin. unfold set_books. cbn [books].
    apply dict_mem_set. exact (Hreg u' br x Hbr Hin).
  - exact Hlim.
Qed.

Lemma well_kept_add_borrower l (id : string) (br : Borrower.t) :
  well_kept l ->
  ~ In id (dict_keys (borrowers l)) ->
  Borrower.borrowed_books br = [] ->
  well_kept (set_borrowers (dict_set id br (borrowers l)) l).
Proof.
  intros ((Hkey & Hone & Hinv) & Hreg & Hlim) Hfresh Hnone.
  apply dict_get_None_keys in Hfresh.
  assert (Hsame : forall u' y,
             holds (set_borrowers (dict_set id br (borrowers l)) l) u' y
             <-> holds l u' y).
  { intros u' y. unfold holds, set_borrowers. cbn [borrowers].
    destruct (String.eqb_spec u' id) as [->|Hne].
    - rewrite dict_get_set_eq, Hfresh. split.
      + intros (br' & [= <-] & Hin). rewrite Hnone in Hin. destruct Hin.
      + intros (br' & Hbr' & _). discriminate.
    - now rewrite dict_get_set_neq. }
  split; [split; [|split]|split].
  - exact Hkey.
  - intros u' br'. unfold set_borrowers. cbn [borrowers].
    destruct (String.eqb_spec u' id) as [->|Hne].
    + rewrite dict_get_set_eq. intros [= <-]. rewrite Hnone. constructor.
    + rewrite dict_get_set_neq by assumption. apply Hone.
  - intros k' b' Hb'. destruct (Hinv k' b' Hb') as [Hiff Huniq]. split.
    + rewrite Hiff. split; intros [u' Hu']; exists u'; now apply Hsame.
    + intros u1 u2 H1 H2. apply Huniq; now apply Hsame.
  - intros u' br' x. unfold set_borrowers. cbn [borrowers books].
    destruct (String.eqb_spec u' id) as [->|Hne].
    + rewrite dict_get_set_eq. intros [= <-]. rewrite Hnone. intros [].
    + rewrite dict_get_set_neq by assumption. apply Hreg.
  - intros u' br'. unfold set_borrowers. cbn [borrowers].
    destruct (String.eqb_spec u' id) as [->|Hne].
    + rewrite dict_get_set_eq. intros [= <-]. rewrite Hnone. simpl.
      unfold Borrower.MAX_BOOKS. lia.
    + rewrite dict_get_set_neq by assumption. apply Hlim.
Qed.

Lemma registered_only_lent l k u (b : Book.t) (br : Borrower.t) :
  registered_only l ->
  dict_get u (borrowers l) = Some br ->
  registered_only (lent k u b br l).
Proof.
  intros Hreg Hbr u' br' x. unfold lent. cbn [borrowers books].
  destruct (String.eqb_spec u' u) as [->|Hne].
  - rewrite dict_get_set_eq. intros [= <-]. simpl. intros Hin.
    apply in_app_or in Hin. destruct Hin as [Hin|[<-|[]]].
    + apply dict_mem_set. exact (Hreg u br x Hbr Hin).
    + unfold dict_mem. now rewrite dict_get_set_eq.
  - rewrite dict_get_set_neq by assumption. intros Hbr' Hin.
    apply dict_mem_set. exact (Hreg u' br' x Hbr' Hin).
Qed.

Lemma registered_only_returned l k u (b : Book.t) (br : Borrower.t) :
  registered_only l ->
  dict_get u (borrowers l) = Some br ->
  registered_only (returned k u b br l).
Proof.
  intros Hreg Hbr u' br' x. unfold returned. cbn [borrowers books].
  destruct (String.eqb_spec u' u) as [->|Hne].
  - rewrite dict_get_set_eq. intros [= <-]. simpl. intros Hin.
    apply dict_mem_set. apply (Hreg u br x Hbr). eapply list_remove_In, Hin.
  - rewrite dict_get_set_neq by assumption. intros Hbr' Hin.
    apply dict_mem_set. exact (Hreg u' br' x Hbr' Hin).
Qed.

Lemma well_kept_api_perform (c : api_call) w :
  well_kept (self w) -> well_kept (self (api_perform c w)).
Proof.
  intros Hw. destruct c as [title author genre|name email|c]; simpl.
  - destruct (add_book_self title author genre w) as [->|(id & Hfresh & ->)];
      [exact Hw | now apply well_kept_add_book].
  - destruct (add_borrower_self name email w) as [->|(id & Hfresh & ->)];
      [exact Hw | now apply well_kept_add_borrower].
  - destruct Hw as (Hcons & Hreg & Hlim).
    split; [now apply consistent_perform|].
    split; [|now apply within_limit_perform].
    destruct (perform_self c w)
      as [->|[(k & u & b & br & _ & _ & Hbr & _ & _ & ->)
             |(k & u & b & br & _ & _ & Hbr & _ & ->)]].
    + exact Hreg.
    + now apply registered_only_lent.
    + now apply registered_only_returned.
Qed.

(** Every session that starts without books and borrowers leads to a
    consistent registry in which no borrower exceeds the limit. *)
Theorem session_keeps_ledger (calls : list api_call)
    (name books_file borrowers_file : string) :
  consistent (self (api_run calls (new_world name books_file borrowers_file)))
  /\ within_limit
       (self (api_run calls (new_world name books_file borrowers_file))).
Proof.
  assert (H : forall w, well_kept (self w) -> well_kept (self (api_run calls w))).
  { induction calls as [|c calls IH]; intros w Hw; [exact Hw|].
    apply IH, well_kept_api_perform, Hw. }
  destruct (H (new_world name books_file borrowers_file)) as (Hc & _ & Hl).
  - split; [apply consistent_empty|].
    split; intros u br; simpl; discriminate.
  - now split.
Qed.

(** The scenario of the specification. *)
Example session_scenario :
  let w := api_run [ Add_book "A" "X" "Fiction";
                     Add_book "B" "Y" "Fiction";
                     Add_borrower "Joe" "j@x.com";
                     Ledger (Checkout "BOOK_0001" "USER_0001") ]
                   (new_world "Demo" "./library_books.json"
                      "./library_borrowers.json") in
  dict_keys (books (self w)) = ["BOOK_0001"; "BOOK_0002"]
  /\ dict_get "BOOK_0001" (books (self w))
     = Some (Book.mk "BOOK_0001" "A" "X" "Fiction" false)
  /\ dict_get "USER_0001" (borrowers (self w))
     = Some (Borrower.mk "USER_0001" "Joe" "j@x.com" ["BOOK_0001"])
  /\ fst (checkout_book "BOOK_0001" "USER_0001" w) = Returned false
  /\ (let '(r, w') := return_book "BOOK_0001" "USER_0001" w in
      r = Returned true
      /\ dict_get "BOOK_0001" (books (self w'))
         = Some (Book.mk "BOOK_0001" "A" "X" "Fiction" true)
      /\ dict_get "USER_0001" (borrowers (self w'))
         = Some (Borrower.mk "USER_0001" "Joe" "j@x.com" [])).
Proof. vm_compute. repeat split. Qed.

End Sessions.

(* ================================================================= *)
(** ** Records and documents *)

Section Records.
Implicit Types (data : dict value) (b : Book.t) (br : Borrower.t).

Lemma as_str_list_map (l : list string) : as_str_list (map VStr l) = Some l.
Proof. induction l as [|x l IH]; simpl; [reflexivity | now rewrite IH]. Qed.

Lemma book_record_read b :
  Book.from_dict (Book.to_dict b)
  = Some (if list_contains (Book.genre b) Book.GENRES
          then Returned b else Raised ValueError).
Proof.
  destruct b as [id title author genre available].
  unfold Book.from_dict, Book.from_dict_arguments, Book.to_dict, dict_getitem.
  cbn -[list_contains Book.GENRES]. unfold Book.__init__.
  now destruct (list_contains genre Book.GENRES).
Qed.

Lemma borrower_record_read br :
  Borrower.from_dict (Borrower.to_dict br) = Some (Returned br).
Proof.
  destruct br as [id name email l].
  unfold Borrower.from_dict, Borrower.from_dict_books, Borrower.to_dict,
    dict_getitem.
  cbn -[as_str_list]. destruct l as [|x l]; [reflexivity|].
  now rewrite (as_str_list_map (x :: l)).
Qed.

(** A book written by [to_dict] is read back by [from_dict] when its genre
    is one of [GENRES], and refused with [ValueError] when it is not. *)
Theorem book_to_dict_from_dict b :
  (In (Book.genre b) Book.GENRES ->
   Book.from_dict (Book.to_dict b) = Some (Returned b))
  /\ (~ In (Book.genre b) Book.GENRES ->
      Book.from_dict (Book.to_dict b) = Some (Raised ValueError)).
Proof.
  rewrite book_record_read. split; intros H.
  - apply list_contains_In in H. now rewrite H.
  - apply list_contains_false in H. now rewrite H.
Qed.

Lemma from_dict_arguments_returns data (vs : value * value * value * value * value) :
  Book.from_dict_arguments data = Returned vs <->
  dict_get "book_id" data = Some (fst (fst (fst (fst vs))))
  /\ dict_get "title" data = Some (snd (fst (fst (fst vs))))
  /\ dict_get "author" data = Some (snd (fst (fst vs)))
  /\ dict_get "genre" data = Some (snd (fst vs))
  /\ dict_get "available" data = Some (snd vs).
Proof.
  destruct vs as [[[[v1 v2] v3] v4] v5]. simpl.
  unfold Book.from_dict_arguments, dict_getitem.
  destruct (dict_get "book_id" data); cbn [bind];
    [|split; [discriminate | intros [H _]; discriminate]].
  destruct (dict_get "title" data); cbn [bind];
    [|split; [discriminate | intros (_ & H & _); discriminate]].
  destruct (dict_get "author" data); cbn [bind];
    [|split; [discriminate | intros (_ & _ & H & _); discriminate]].
  destruct (dict_get "genre" data); cbn [bind];
    [|split; [discriminate | intros (_ & _ & _ & H & _); discriminate]].
  destruct (dict_get "available" data); cbn [bind];
    [|split; [discriminate | intros (_ & _ & _ & _ & H); discriminate]].
  split.
  - intros [= -> -> -> -> ->]. auto.
  - intros ([= ->] & [= ->] & [= ->] & [= ->] & [= ->]). reflexivity.
Qed.

(** What [Book.from_dict] does with a record: a missing key raises
    [KeyError]; with the five keys, a genre that is not one of [GENRES]
    raises [ValueError]; and a book it returns has a genre of [GENRES] and
    the values of the record. *)
Theorem book_from_dict_checks data :
  (forall key,
     In key book_keys -> dict_get key data = None ->
     Book.from_dict data = Some (Raised KeyError))
  /\ (forall vgenre,
        (forall key, In key book_keys -> dict_get key data <> None) ->
        dict_get "genre" data = Some vgenre ->
        (forall genre, vgenre = VStr genre -> ~ In genre Book.GENRES) ->
        Book.from_dict data = Some (Raised ValueError))
  /\ (forall b,
        Book.from_dict data = Some (Returned b) ->
        In (Book.genre b) Book.GENRES
        /\ forall key, In key book_keys ->
                       dict_get key (Book.to_dict b) = dict_get key data).
Proof.
  split; [|split].
  - intros key Hkey Hnone.
    unfold Book.from_dict, Book.from_dict_arguments, dict_getitem.
    simpl in Hkey.
    destruct (dict_get "book_id" data) eqn:E1; cbn [bind];
      [|reflexivity].
    destruct (dict_get "title" data) eqn:E2; cbn [bind]; [|reflexivity].
    destruct (dict_get "author" data) eqn:E3; cbn [bind]; [|reflexivity].
    destruct (dict_get "genre" data) eqn:E4; cbn [bind]; [|reflexivity].
    destruct (dict_get "available" data) eqn:E5; cbn [bind]; [|reflexivity].
    destruct Hkey as [<-|[<-|[<-|[<-|[<-|[]]]]]]; congruence.
  - intros vgenre Hall Hg Hbad.
    unfold Book.from_dict.
    destruct (Book.from_dict_arguments data) as [[[[[v1 v2] v3] v4] v5]|e] eqn:E.
    + apply from_dict_arguments_returns in E. simpl in E.
      destruct E as (_ & _ & _ & E4 & _).
      assert (v4 = vgenre) by congruence. subst v4.
      destruct vgenre as [| | |genre|]; try reflexivity.
      specialize (Hbad genre eq_refl). apply list_contains_false in Hbad.
      unfold Book.__init__. rewrite Hbad. cbn [negb].
      now destruct (as_str v1), (as_str v2), (as_str v3), (as_bool v5).
    + exfalso. revert E.
      unfold Book.from_dict_arguments, dict_getitem.
      pose proof (Hall "book_id") as H1. pose proof (Hall "title") as H2.
      pose proof (Hall "author") as H3. pose proof (Hall "genre") as H4.
      pose proof (Hall "available") as H5. unfold book_keys in *.
      destruct (dict_get "book_id" data); [|elim H1; simpl; auto].
      destruct (dict_get "title" data); [|elim H2; simpl; auto].
      destruct (dict_get "author" data); [|elim H3; simpl; auto].
      destruct (dict_get "genre" data); [|elim H4; simpl; auto].
      destruct (dict_get "available" data); [|elim H5; simpl; auto 6].
      discriminate.
  - intros b. unfold Book.from_dict.
    destruct (Book.from_dict_arguments data) as [[[[[v1 v2] v3] v4] v5]|e] eqn:E;
      [|discriminate].
    apply from_dict_arguments_returns in E. simpl in E.
    destruct E as (E1 & E2 & E3 & E4 & E5).
    destruct v4 as [| | |genre|]; try discriminate.
    destruct v1 as [| | |id|], v2 as [| | |title|], v3 as [| | |author|],
             v5 as [|available| | |]; cbn [as_str as_bool];
      try (destruct (negb (list_contains genre Book.GENRES)); discriminate).
    unfold Book.__init__.
    destruct (list_contains genre Book.GENRES) eqn:Hg; cbn [negb];
      [|discriminate].
    intros [= <-]. split; [now apply list_contains_In|].
    intros key Hkey. simpl in Hkey.
    destruct Hkey as [<-|[<-|[<-|[<-|[<-|[]]]]]]; symmetry; assumption.
Qed.

(** A borrower written by [to_dict] is read back by [from_dict].  A record
    with the identifier, the name and the email and without the key
    [borrowed_books] is read, and gives the borrower who lists nothing: the
    key has a default.  A record without one of the other keys raises
    [KeyError]. *)
Theorem borrower_to_dict_from_dict br data :
  Borrower.from_dict (Borrower.to_dict br) = Some (Returned br)
  /\ (forall borrower_id name email,
        dict_get "borrower_id" data = Some (VStr borrower_id) ->
        dict_get "name" data = Some (VStr name) ->
        dict_get "email" data = Some (VStr email) ->
        dict_get "borrowed_books" data = None ->
        Borrower.from_dict data
        = Some (Returned (Borrower.mk borrower_id name email [])))
  /\ (forall br', dict_get "borrowed_books" data = None ->
                  Borrower.from_dict data = Some (Returned br') ->
                  Borrower.borrowed_books br' = [])
  /\ (forall key, In key ["borrower_id"; "name"; "email"] ->
                  dict_get key data = None ->
                  Borrower.from_dict data = Some (Raised KeyError)).
Proof.
  split; [|split; [|split]].
  - apply borrower_record_read.
  - intros borrower_id name email Hid Hname Hemail Hnone.
    unfold Borrower.from_dict, Borrower.from_dict_books, dict_getitem.
    now rewrite Hid, Hname, Hemail, Hnone.
  - intros br' Hnone. unfold Borrower.from_dict, Borrower.from_dict_books.
    rewrite Hnone. cbn [py_truthy negb].
    destruct (bind _ _) as [[[v1 v2] v3]|e]; [|discriminate].
    destruct (as_str v1), (as_str v2), (as_str v3); try discriminate.
    now intros [= <-].
  - intros key Hkey Hnone. unfold Borrower.from_dict, dict_getitem.
    simpl in Hkey.
    destruct (dict_get "borrower_id" data) eqn:E1; cbn [bind]; [|reflexivity].
    destruct (dict_get "name" data) eqn:E2; cbn [bind]; [|reflexivity].
    destruct (dict_get "email" data) eqn:E3; cbn [bind]; [|reflexivity].
    destruct Hkey as [<-|[<-|[<-|[]]]]; congruence.
Qed.

End Records.

(* ================================================================= *)
(** ** Saving and loading *)

Section Persistence.
Import Library.
Implicit Types (w : world) (l : Library.t) (fs : dict document).

Lemma dict_set_fresh {V : Type} (k : string) (v : V) (d : dict V) :
  dict_get k d = None -> dict_set k v d = d ++ [(k, v)].
Proof.
  induction d as [|[k0 v0] d IH]; simpl; [reflexivity|].
  destruct (String.eqb k0 k); [discriminate|].
  intros H. now rewrite (IH H).
Qed.

Lemma dict_get_app_None {V : Type} (k : string) (d1 d2 : dict V) :
  dict_get k (d1 ++ d2) = None <-> dict_get k d1 = None /\ dict_get k d2 = None.
Proof.
  induction d1 as [|[k0 v0] d1 IH]; simpl; [tauto|].
  destruct (String.eqb k0 k); [|exact IH].
  split; [discriminate | intros [H _]; discriminate].
Qed.

Lemma NoDup_keys_head {V : Type} (k : string) (v : V) (d : dict V) :
  NoDup (dict_keys ((k, v) :: d)) ->
  dict_get k d = None /\ NoDup (dict_keys d).
Proof.
  unfold dict_keys. simpl. intros H. inversion H as [|? ? Hk Hd]; subst.
  split; [|exact Hd]. now apply dict_get_None_keys.
Qed.

(** On a dictionary the comprehension keeps the keys, in their order. *)
Lemma fold_dict_set_map {V W : Type} (f : V -> W) (d : dict V) (acc : dict W) :
  NoDup (dict_keys d) ->
  (forall k, dict_get k d <> None -> dict_get k acc = None) ->
  fold_left (fun acc kv => dict_set (fst kv) (f (snd kv)) acc) d acc
  = acc ++ map (fun kv => (fst kv, f (snd kv))) d.
Proof.
  revert acc. induction d as [|[k v] d IH]; intros acc Hnd Hacc; simpl.
  - now rewrite app_nil_r.
  - apply NoDup_keys_head in Hnd. destruct Hnd as [Hk Hnd].
    assert (Hkacc : dict_get k acc = None).
    { apply Hacc. simpl. rewrite String.eqb_refl. discriminate. }
    rewrite (dict_set_fresh _ _ _ Hkacc), (IH _ Hnd).
    + now rewrite <- app_assoc.
    + intros k' Hk'. apply dict_get_app_None. split.
      * apply Hacc. simpl. destruct (String.eqb k k'); [discriminate | exact Hk'].
      * simpl. destruct (String.eqb_spec k k') as [<-|_]; [congruence | reflexivity].
Qed.

Lemma dict_comprehension_map {V W : Type} (f : V -> W) (d : dict V) :
  NoDup (dict_keys d) ->
  dict_comprehension f d = map (fun kv => (fst kv, f (snd kv))) d.
Proof.
  intros Hnd. unfold dict_comprehension.
  now rewrite (fold_dict_set_map f d [] Hnd).
Qed.

(** Records that [from_dict] reads back are loaded as they were written. *)
Lemma load_records_written {A : Type} (to_dict : A -> dict value)
    (from_dict : dict value -> option (outcome A)) (d acc : dict A) :
  (forall a, In a (dict_values d) -> from_dict (to_dict a) = Some (Returned a)) ->
  NoDup (dict_keys d) ->
  (forall k, dict_get k d <> None -> dict_get k acc = None) ->
  load_records from_dict (map (fun kv => (fst kv, to_dict (snd kv))) d) acc
  = Some (Returned (acc ++ d)).
Proof.
  revert acc. induction d as [|[k a] d IH]; intros acc Hread Hnd Hacc; simpl.
  - now rewrite app_nil_r.
  - rewrite (Hread a) by (now left).
    apply NoDup_keys_head in Hnd. destruct Hnd as [Hk Hnd].
    assert (Hkacc : dict_get k acc = None).
    { apply Hacc. simpl. rewrite String.eqb_refl. discriminate. }
    rewrite (dict_set_fresh _ _ _ Hkacc), IH.
    + now rewrite <- app_assoc.
    + intros a' Ha'. apply Hread. now right.
    + exact Hnd.
    + intros k' Hk'. apply dict_get_app_None. split.
      * apply Hacc. simpl. destruct (String.eqb k k'); [discriminate | exact Hk'].
      * simpl. destruct (String.eqb_spec k k') as [<-|_]; [congruence | reflexivity].
Qed.

Lemma set_books_borrowers_same l :
  set_borrowers (borrowers l) (set_books (books l) l) = l.
Proof. now destruct l. Qed.

(** Loading the two documents of a storable registry gives its books and
    borrowers, whatever the registry loaded into held. *)
Lemma load_documents l l0 fs :
  storable l ->
  books_file l0 = books_file l ->
  borrowers_file l0 = borrowers_file l ->
  dict_get (books_file l) fs = Some (books_document l) ->
  dict_get (borrowers_file l) fs = Some (borrowers_document l) ->
  load (mk_world l0 fs)
  = Some (Returned tt,
          mk_world (set_borrowers (borrowers l) (set_books (books l) l0)) fs).
Proof.
  intros (Hb & Hbr & Hg & _) Hf1 Hf2 Hd1 Hd2.
  unfold load. cbn [self files]. rewrite Hf1, Hd1.
  unfold books_document. rewrite (dict_comprehension_map _ _ Hb).
  rewrite (load_records_written Book.to_dict Book.from_dict (books l) []);
    [|intros b Hin; rewrite book_record_read;
      now rewrite (proj2 (list_contains_In _ _) (Hg b Hin))|exact Hb|reflexivity].
  cbn [app]. replace (borrowers_file (set_books (books l) l0))
    with (borrowers_file l) by (now rewrite <- Hf2).
  rewrite Hd2. unfold borrowers_document.
  rewrite (dict_comprehension_map _ _ Hbr).
  rewrite (load_records_written Borrower.to_dict Borrower.from_dict
             (borrowers l) []);
    [reflexivity|intros br _; apply borrower_record_read
    |exact Hbr|reflexivity].
Qed.

Lemma save_files w :
  dict_get (borrowers_file (self w)) (files (save w))
  = Some (borrowers_document (self w))
  /\ (books_file (self w) <> borrowers_file (self w) ->
      dict_get (books_file (self w)) (files (save w))
      = Some (books_document (self w))).
Proof.
  unfold save. cbn [self files]. split.
  - apply dict_get_set_eq.
  - intros Hne. rewrite dict_get_set_neq by assumption. apply dict_get_set_eq.
Qed.

(** What [save] writes: the registry and every other file are as they were;
    the borrowers' file holds the borrowers' document, and the books' file
    the books' document when the two files differ. *)
Theorem save_writes_two_files w :
  self (save w) = self w
  /\ (forall path,
        path <> books_file (self w) -> path <> borrowers_file (self w) ->
        dict_get path (files (save w)) = dict_get path (files w))
  /\ dict_get (borrowers_file (self w)) (files (save w))
     = Some (borrowers_document (self w))
  /\ (books_file (self w) <> borrowers_file (self w) ->
      dict_get (books_file (self w)) (files (save w))
      = Some (books_document (self w))).
Proof.
  split; [reflexivity|]. split; [|apply save_files].
  intros path H1 H2. unfold save. cbn [self files].
  now rewrite !dict_get_set_neq.
Qed.

Lemma storableb_sound l : storableb l = true -> storable l.
Proof.
  unfold storableb. rewrite !andb_true_iff, forallb_forall.
  intros [[[Hb Hbr] Hg] Hf]. split; [|split; [|split]].
  - now apply nodupb_NoDup.
  - now apply nodupb_NoDup.
  - intros b Hin. now apply list_contains_In, Hg.
  - intros Heq. apply String.eqb_eq in Heq. rewrite Heq in Hf. discriminate.
Qed.

(** Loading after saving gives the registry back: for a registry with
    unique keys, genres of [GENRES] and two different files, [load] after
    [save] returns and leaves the state [save] left. *)
Theorem save_then_load w :
  storable (self w) ->
  load (save w) = Some (Returned tt, save w).
Proof.
  intros Hs.
  destruct (save_files w) as (Hbr & Hb).
  destruct w as [l fs]. cbn [self] in *.
  pose proof Hs as (_ & _ & _ & Hne).
  change (save (mk_world l fs)) with (mk_world l (files (save (mk_world l fs)))).
  rewrite (load_documents l l _ Hs eq_refl eq_refl (Hb Hne) Hbr).
  now rewrite set_books_borrowers_same.
Qed.

End Persistence.

(* ================================================================= *)
(** ** Registering books and borrowers *)

Section Registering.
Import Library.
Implicit Types (w : world) (l : Library.t).



(** With a save that completes, [add_book] raises and leaves the state, or
    registers a new book last. *)
Lemma add_book_outcome (title author genre : string) w :
  (exists e, add_book title author genre w = (Raised e, w)
             /\ (In genre Book.GENRES ->
                 generate_id "BOOK" (dict_keys (books (self w))) = Raised e)
             /\ (~ In genre Book.GENRES ->
                 e = ValueError
                 \/ generate_id "BOOK" (dict_keys (books (self w))) = Raised e))
  \/ (exists id,
        In genre Book.GENRES
        /\ generate_id "BOOK" (dict_keys (books (self w))) = Returned id
        /\ dict_get id (books (self w)) = None
        /\ add_book title author genre w
           = (Returned (Book.mk id title author genre true),
              save (mk_world
                      (set_books
                         (books (self w)
                          ++ [(id, Book.mk id title author genre true)])
                         (self w))
                      (files w)))).
Proof.
  unfold add_book.
  destruct (generate_id "BOOK" (dict_keys (books (self w)))) as [id|e] eqn:E.
  - unfold Book.__init__.
    destruct (list_contains genre Book.GENRES) eqn:Hg; cbn [negb].
    + right. exists id.
      assert (Hfresh : dict_get id (books (self w)) = None).
      { apply dict_get_None_keys. now apply (generate_id_fresh "BOOK"). }
      split; [now apply list_contains_In|]. split; [reflexivity|].
      split; [exact Hfresh|]. now rewrite (dict_set_fresh _ _ _ Hfresh).
    + left. exists ValueError. split; [reflexivity|].
      apply list_contains_false in Hg. split; [contradiction | auto].
  - left. exists e. split; [reflexivity|]. auto.
Qed.

Lemma add_borrower_outcome (name email : string) w :
  (exists e, add_borrower name email w = (Raised e, w)
             /\ generate_id "USER" (dict_keys (borrowers (self w))) = Raised e)
  \/ (exists id,
        generate_id "USER" (dict_keys (borrowers (self w))) = Returned id
        /\ dict_get id (borrowers (self w)) = None
        /\ add_borrower name email w
           = (Returned (Borrower.mk id name email []),
              save (mk_world
                      (set_borrowers
                         (borrowers (self w)
                          ++ [(id, Borrower.mk id name email [])])
                         (self w))
                      (files w)))).
Proof.
  unfold add_borrower.
  destruct (generate_id "USER" (dict_keys (borrowers (self w)))) as [id|e] eqn:E.
  - right. exists id.
    assert (Hfresh : dict_get id (borrowers (self w)) = None).
    { apply dict_get_None_keys. now apply (generate_id_fresh "USER"). }
    split; [reflexivity|]. split; [exact Hfresh|].
    now rewrite (dict_set_fresh _ _ _ Hfresh).
  - left. exists e. now split.
Qed.

(** When [add_book] returns a book, the genre is one of [GENRES]; the book
    has the title, author and genre given and is available; its identifier
    was not registered before; it is registered last, after the books there
    were, which stay as they are, and so do the borrowers; and the state is
    saved. *)
Theorem add_book_registers (title author genre : string) w (b : Book.t) w' :
  add_book title author genre w = (Returned b, w') ->
  In genre Book.GENRES
  /\ b = Book.mk (Book.book_id b) title author genre true
  /\ ~ In (Book.book_id b) (dict_keys (books (self w)))
  /\ books (self w') = books (self w) ++ [(Book.book_id b, b)]
  /\ dict_get (Book.book_id b) (books (self w')) = Some b
  /\ (forall k b0, dict_get k (books (self w)) = Some b0 ->
                   dict_get k (books (self w')) = Some b0)
  /\ borrowers (self w') = borrowers (self w)
  /\ dict_get (borrowers_file (self w')) (files w')
     = Some (borrowers_document (self w')).
Proof.
  intros H.
  destruct (add_book_outcome title author genre w)
    as [(e & He & _)|(id & Hg & _ & Hfresh & Hadd)];
    [rewrite He in H; discriminate|].
  rewrite Hadd in H. injection H as <- <-.
  cbn [Book.book_id]. rewrite save_self. cbn [self books borrowers set_books].
  split; [exact Hg|]. split; [reflexivity|].
  split; [now apply dict_get_None_keys|]. split; [reflexivity|].
  rewrite <- (dict_set_fresh _ _ _ Hfresh).
  split; [apply dict_get_set_eq|]. split; [|split; [reflexivity|]].
  - intros k b0 Hk. rewrite dict_get_set_neq; [exact Hk | congruence].
  - exact (proj1 (save_files (mk_world _ (files w)))).
Qed.

(** [add_book] checks before it registers.  When reading the existing
    identifiers raises, it raises the same; when an identifier is found and
    the genre is outside [GENRES], it raises [ValueError].  Either way the
    state, files included, is the one it was called in: nothing is
    registered and nothing is saved.  So a genre outside [GENRES] is always
    refused. *)
Theorem add_book_refuses (title author genre : string) w :
  (forall e,
     generate_id "BOOK" (dict_keys (books (self w))) = Raised e ->
     add_book title author genre w = (Raised e, w))
  /\ (forall id,
        generate_id "BOOK" (dict_keys (books (self w))) = Returned id ->
        ~ In genre Book.GENRES ->
        add_book title author genre w = (Raised ValueError, w))
  /\ (~ In genre Book.GENRES ->
      exists e,
        add_book title author genre w = (Raised e, w)
        /\ (e = ValueError
            \/ generate_id "BOOK" (dict_keys (books (self w))) = Raised e)).
Proof.
  split; [|split].
  - intros e He. unfold add_book. now rewrite He.
  - intros id Hid Hno. unfold add_book, Book.__init__. rewrite Hid.
    apply list_contains_false in Hno. now rewrite Hno.
  - intros Hno.
    destruct (add_book_outcome title author genre w)
      as [(e & He & _ & Hbad)|(id & Hg & _)]; [|contradiction].
    exists e. split; [exact He | exact (Hbad Hno)].
Qed.

(** When [add_borrower] returns a borrower, it has the name and email given
    and lists nothing; its identifier was not registered before; it is
    registered last, after the borrowers there were, which stay as they are,
    and so do the books.  When reading the existing identifiers raises,
    [add_borrower] raises the same and the state, files included, is the
    one it was called in. *)
Theorem add_borrower_registers (name email : string) w :
  (forall br w',
     add_borrower name email w = (Returned br, w') ->
     br = Borrower.mk (Borrower.borrower_id br) name email []
     /\ ~ In (Borrower.borrower_id br) (dict_keys (borrowers (self w)))
     /\ borrowers (self w')
        = borrowers (self w) ++ [(Borrower.borrower_id br, br)]
     /\ (forall u br0, dict_get u (borrowers (self w)) = Some br0 ->
                       dict_get u (borrowers (self w')) = Some br0)
     /\ books (self w') = books (self w))
  /\ (forall e,
        generate_id "USER" (dict_keys (borrowers (self w))) = Raised e ->
        add_borrower name email w = (Raised e, w)).
Proof.
  destruct (add_borrower_outcome name email w)
    as [(e & He & Hgen)|(id & Hid & Hfresh & Hadd)]; split.
  - intros br w' H. rewrite He in H. discriminate.
  - intros e' He'. rewrite Hgen in He'. now injection He' as <-.
  - intros br w' H. rewrite Hadd in H. injection H as <- <-.
    cbn [Borrower.borrower_id]. rewrite save_self.
    cbn [self books borrowers set_borrowers].
    split; [reflexivity|]. split; [now apply dict_get_None_keys|].
    split; [reflexivity|]. split; [|reflexivity].
    intros u br0 Hu. rewrite <- (dict_set_fresh _ _ _ Hfresh).
    rewrite dict_get_set_neq; [exact Hu | congruence].
  - intros e' He'. rewrite Hid in He'. discriminate.
Qed.

(** The identifier [generate_id] returns, for a prefix without underscore,
    is none of the existing ones, and the number the code reads back from it
    is larger than the number of every existing identifier. *)
Theorem generate_id_new_and_larger (prefix : string)
    (existing_ids : list string) (id : string) :
  no_underscore prefix = true ->
  generate_id prefix existing_ids = Returned id ->
  ~ In id existing_ids
  /\ exists next,
       id_number id = Returned next
       /\ forall id0, In id0 existing_ids ->
                      exists n0, id_number id0 = Returned n0 /\ (n0 < next)%Z.
Proof.
  intros Hp Hgen. split; [now apply (generate_id_fresh prefix)|].
  destruct (id_numbers existing_ids) as [numbers|e] eqn:Hnums.
  - destruct (generate_id_formats prefix existing_ids numbers Hnums)
      as (next & Hret & Hnext).
    rewrite Hret in Hgen.
    destruct (format_04d next) as [number|] eqn:Hfmt; [|discriminate].
    cbn [bind] in Hgen. injection Hgen as <-.
    exists next. split.
    + exact (id_number_generated prefix next number Hp Hfmt).
    + intros id0 Hin.
      destruct Hnext as [[-> _]|(_ & _ & Hlt)]; [destruct Hin|].
      destruct (id_numbers_In _ _ _ Hnums Hin) as (n0 & Hn0 & Hnin).
      exists n0. split; [exact Hn0 | exact (Hlt _ Hnin)].
  - destruct existing_ids as [|id0 rest].
    + simpl in Hnums. discriminate.
    + rewrite (generate_id_raises prefix (id0 :: rest) e) in Hgen;
        [discriminate | discriminate | exact Hnums].
Qed.

End Registering.

(* ================================================================= *)
(** ** Opening a library again *)

Section Reopening.
Import Library.
Implicit Types (w : world) (l : Library.t).




Lemma dict_get_In_values {V : Type} (k : string) (v : V) (d : dict V) :
  dict_get k d = Some v -> In v (dict_values d).
Proof.
  intros H. apply dict_get_In in H. unfold dict_values.
  apply (in_map snd) in H. exact H.
Qed.







End Reopening.

(* ================================================================= *)
(** ** Loading a document that cannot be read *)

Section BadDocuments.
Import Library.
Implicit Types (w : world) (l : Library.t).

Lemma load_records_app {A : Type} (from_dict : dict value -> option (outcome A))
    (d1 d2 : document) (acc : dict A) :
  load_records from_dict (d1 ++ d2) acc
  = match load_records from_dict d1 acc with
    | Some (Returned acc') => load_records from_dict d2 acc'
    | other => other
    end.
Proof.
  revert acc. induction d1 as [|[k r] d1 IH]; intros acc; simpl; [reflexivity|].
  destruct (from_dict r) as [[a|e]|]; auto.
Qed.

Lemma load_records_bad {A : Type} (from_dict : dict value -> option (outcome A))
    (good rest : document) (k : string) (bad : dict value) (e : exn)
    (loaded : dict A) :
  load_records from_dict good [] = Some (Returned loaded) ->
  from_dict bad = Some (Raised e) ->
  load_records from_dict (good ++ (k, bad) :: rest) [] = Some (Raised e).
Proof.
  intros Hgood Hbad. rewrite load_records_app, Hgood. simpl. now rewrite Hbad.
Qed.

(** One record of the books' document that [Book.from_dict] refuses, after
    records it reads, makes [load] raise what it raised, and the registry
    keeps the books and the borrowers it had: the records read before are
    not kept, the borrowers' document is not read. *)
Theorem load_refuses_bad_book w (good rest : document) (k : string)
    (bad : dict value) (e : exn) (loaded : dict Book.t) :
  dict_get (books_file (self w)) (files w) = Some (good ++ (k, bad) :: rest) ->
  load_records Book.from_dict good [] = Some (Returned loaded) ->
  Book.from_dict bad = Some (Raised e) ->
  load w = Some (Raised e, w).
Proof.
  intros Hfile Hgood Hbad. unfold load. rewrite Hfile.
  now rewrite (load_records_bad Book.from_dict good rest k bad e loaded).
Qed.

Lemma load_refuses_bad_book_sample :
  load (mk_world sample_library sample_bad_books)
  = Some (Raised KeyError, mk_world sample_library sample_bad_books).
Proof.
  exact (load_refuses_bad_book (mk_world sample_library sample_bad_books)
           [ ("BOOK_0001",
              Book.to_dict (Book.mk "BOOK_0001" "A" "X" "Fiction" true)) ]
           [ ("BOOK_0003",
              Book.to_dict (Book.mk "BOOK_0003" "C" "Z" "History" true)) ]
           "BOOK_0002"
           [ ("book_id", VStr "BOOK_0002"); ("title", VStr "B") ]
           KeyError
           [ ("BOOK_0001", Book.mk "BOOK_0001" "A" "X" "Fiction" true) ]
           eq_refl eq_refl eq_refl).
Defined.

(** [load] is not all or nothing: when the books' document is read and a
    record of the borrowers' document is refused, [load] raises with the
    books replaced by those of the document and the borrowers as they
    were. *)
Theorem load_keeps_books_before_bad_borrower w (books_data : document)
    (loaded_books : dict Book.t) (good rest : document) (k : string)
    (bad : dict value) (e : exn) (loaded : dict Borrower.t) :
  dict_get (books_file (self w)) (files w) = Some books_data ->
  load_records Book.from_dict books_data [] = Some (Returned loaded_books) ->
  dict_get (borrowers_file (self w)) (files w)
  = Some (good ++ (k, bad) :: rest) ->
  load_records Borrower.from_dict good [] = Some (Returned loaded) ->
  Borrower.from_dict bad = Some (Raised e) ->
  load w = Some (Raised e, mk_world (set_books loaded_books (self w)) (files w))
  /\ books (set_books loaded_books (self w)) = loaded_books
  /\ borrowers (set_books loaded_books (self w)) = borrowers (self w).
Proof.
  intros Hfile Hbooks Hfile2 Hgood Hbad. unfold load.
  rewrite Hfile, Hbooks. cbn [borrowers_file set_books]. rewrite Hfile2.
  rewrite (load_records_bad Borrower.from_dict good rest k bad e loaded Hgood Hbad).
  now split.
Qed.

Lemma load_keeps_books_before_bad_borrower_sample :
  load (mk_world sample_library sample_bad_borrowers)
  = Some (Raised KeyError,
          mk_world
            (set_books
               [ ("BOOK_0001", Book.mk "BOOK_0001" "A" "X" "Fiction" true) ]
               sample_library)
            sample_bad_borrowers)
  /\ books (set_books
              [ ("BOOK_0001", Book.mk "BOOK_0001" "A" "X" "Fiction" true) ]
              sample_library)
     = [ ("BOOK_0001", Book.mk "BOOK_0001" "A" "X" "Fiction" true) ]
  /\ borrowers (set_books
                  [ ("BOOK_0001", Book.mk "BOOK_0001" "A" "X" "Fiction" true) ]
                  sample_library)
     = sample_borrowers.
Proof.
  exact (load_keeps_books_before_bad_borrower
           (mk_world sample_library sample_bad_borrowers)
           [ ("BOOK_0001",
              Book.to_dict (Book.mk "BOOK_0001" "A" "X" "Fiction" true)) ]
           [ ("BOOK_0001", Book.mk "BOOK_0001" "A" "X" "Fiction" true) ]
           [] []
           "USER_0001"
           [ ("borrower_id", VStr "USER_0001"); ("name", VStr "Joe") ]
           KeyError []
           eq_refl eq_refl eq_refl eq_refl eq_refl).
Defined.

(** The witnesses of saving, loading and opening again. *)
Lemma save_then_load_sample :
  load (save sample_world) = Some (Returned tt, save sample_world).
Proof.
  exact (save_then_load sample_world (storableb_sound sample_library eq_refl)).
Defined.


Lemma add_book_registers_sample :
  In "Science" Book.GENRES
  /\ Book.mk "BOOK_0006" "N" "M" "Science" true
     = Book.mk "BOOK_0006" "N" "M" "Science" true
  /\ ~ In "BOOK_0006" (dict_keys sample_books)
  /\ books (self (snd (add_book "N" "M" "Science" sample_world)))
     = sample_books ++ [("BOOK_0006", Book.mk "BOOK_0006" "N" "M" "Science" true)]
  /\ dict_get "BOOK_0006"
       (books (self (snd (add_book "N" "M" "Science" sample_world))))
     = Some (Book.mk "BOOK_0006" "N" "M" "Science" true)
  /\ (forall k b0, dict_get k sample_books = Some b0 ->
                   dict_get k
                     (books (self (snd (add_book "N" "M" "Science" sample_world))))
                   = Some b0)
  /\ borrowers (self (snd (add_book "N" "M" "Science" sample_world)))
     = sample_borrowers
  /\ dict_get
       (borrowers_file (self (snd (add_book "N" "M" "Science" sample_world))))
       (files (snd (add_book "N" "M" "Science" sample_world)))
     = Some (borrowers_document
               (self (snd (add_book "N" "M" "Science" sample_world)))).
Proof.
  exact (add_book_registers "N" "M" "Science" sample_world
           (Book.mk "BOOK_0006" "N" "M" "Science" true) _ eq_refl).
Defined.

Lemma generate_id_new_and_larger_sample :
  ~ In "USER_0008" ["USER_0002"; "USER_0007"]
  /\ exists next,
       id_number "USER_0008" = Returned next
       /\ forall id0, In id0 ["USER_0002"; "USER_0007"] ->
                      exists n0, id_number id0 = Returned n0 /\ (n0 < next)%Z.
Proof.
  exact (generate_id_new_and_larger "USER" ["USER_0002"; "USER_0007"]
           "USER_0008" eq_refl eq_refl).
Defined.

End BadDocuments.

(* ================================================================= *)
(** ** Queries *)

Section Queries.
Import Library.
Implicit Types (w : world) (l : Library.t) (u k : string).

Lemma satisfiesb_available (b : Book.t) (v : bool) :
  satisfiesb [("available", VBool v)] (Book.to_dict b)
  = Bool.eqb (Book.available b) v.
Proof.
  destruct b as [id title author genre available].
  unfold satisfiesb, Book.to_dict. cbn. now rewrite andb_true_r.
Qed.

(** Searching the books for [available=True] returns the records of the
    books [get_available_books] returns, in the same order; for
    [available=False], the records of the other books. *)
Theorem search_books_by_availability l :
  search_books l [("available", VBool true)]
  = Returned (map Book.to_dict (get_available_books l))
  /\ search_books l [("available", VBool false)]
     = Returned (map Book.to_dict
                   (filter (fun b => negb (Book.available b))
                           (dict_values (books l)))).
Proof.
  unfold search_books, get_available_books.
  split; cbn [dict_mem dict_get String.eqb Ascii.eqb Bool.eqb];
    (rewrite search_items_filter by reflexivity);
    rewrite filter_map_swap; apply f_equal, f_equal, filter_ext; intros b;
    rewrite satisfiesb_available; now destruct (Book.available b).
Qed.

Lemma In_values_get {V : Type} (d : dict V) (v : V) :
  NoDup (dict_keys d) ->
  In v (dict_values d) -> exists k, dict_get k d = Some v.
Proof.
  intros Hnd Hin. unfold dict_values in Hin. apply in_map_iff in Hin.
  destruct Hin as ([k v'] & <- & Hin). exists k. now apply In_dict_get.
Qed.

(** In a consistent registry the available books are the registered books
    that no borrower lists. *)
Theorem available_books_are_unlisted l (b : Book.t) :
  consistent l ->
  NoDup (dict_keys (books l)) ->
  In b (get_available_books l)
  <-> In b (dict_values (books l)) /\ forall u, ~ holds l u (Book.book_id b).
Proof.
  intros (_ & _ & Hinv) Hnd. unfold get_available_books. rewrite filter_In.
  split; intros [Hin H]; (split; [exact Hin|]);
    destruct (In_values_get _ _ Hnd Hin) as (k & Hk);
    destruct (Hinv k b Hk) as [[Hlisted Hheld] _].
  - intros u Hu. rewrite Hheld in H by eauto. discriminate.
  - destruct (Book.available b); [reflexivity|].
    destruct (Hlisted eq_refl) as [u Hu]. elim (H u Hu).
Qed.

Lemma available_books_are_unlisted_sample :
  In (Book.mk "BOOK_0002" "B" "Y" "Science" true)
     (get_available_books sample_library)
  <-> In (Book.mk "BOOK_0002" "B" "Y" "Science" true) (dict_values sample_books)
      /\ forall u, ~ holds sample_library u "BOOK_0002".
Proof.
  exact (available_books_are_unlisted sample_library
           (Book.mk "BOOK_0002" "B" "Y" "Science" true)
           (consistentb_sound sample_library eq_refl)
           (nodupb_NoDup (dict_keys sample_books) eq_refl)).
Defined.

(** The books of a list of identifiers: those that are registered, in the
    order of the list. *)
Lemma books_listed_returns l (ids : list string) :
  books_listed l ids
  = Returned (flat_map (fun id => match dict_get id (books l) with
                                  | Some b => [b]
                                  | None => []
                                  end) ids).
Proof.
  induction ids as [|id ids IH]; simpl; [reflexivity|].
  unfold dict_mem, dict_getitem.
  destruct (dict_get id (books l)) as [b|]; cbn [bind]; rewrite IH; reflexivity.
Qed.

(** [get_borrower_books] never raises.  For an unknown borrower it returns
    the empty list; otherwise the registered books among those the borrower
    lists, in the order of the list, an identifier that is not registered
    being passed over. *)
Theorem get_borrower_books_returns u l :
  exists bs,
    get_borrower_books u l = Returned bs
    /\ (dict_get u (borrowers l) = None -> bs = [])
    /\ (forall b, In b bs ->
          exists br id,
            dict_get u (borrowers l) = Some br
            /\ In id (Borrower.borrowed_books br)
            /\ dict_get id (books l) = Some b)
    /\ (forall br id b,
          dict_get u (borrowers l) = Some br ->
          In id (Borrower.borrowed_books br) ->
          dict_get id (books l) = Some b ->
          In b bs)
    /\ (forall br, dict_get u (borrowers l) = Some br ->
          (List.length bs <= List.length (Borrower.borrowed_books br))%nat).
Proof.
  unfold get_borrower_books, dict_mem, dict_getitem.
  destruct (dict_get u (borrowers l)) as [br|]; cbn [negb bind].
  - rewrite books_listed_returns. eexists. split; [reflexivity|].
    split; [discriminate|]. split; [|split].
    + intros b Hb. apply in_flat_map in Hb. destruct Hb as (id & Hid & Hb).
      exists br, id. split; [reflexivity|]. split; [exact Hid|].
      destruct (dict_get id (books l)) as [b'|]; [|destruct Hb].
      destruct Hb as [->|[]]. reflexivity.
    + intros br' id b [= <-] Hid Hb. apply in_flat_map. exists id.
      split; [exact Hid|]. rewrite Hb. now left.
    + intros br' [= <-]. rewrite length_flat_map.
      induction (Borrower.borrowed_books br) as [|id ids IH]; simpl; [lia|].
      destruct (dict_get id (books l)); simpl; lia.
  - exists []. split; [reflexivity|]. split; [reflexivity|].
    split; [intros b []|]. split; [discriminate | discriminate].
Qed.

Lemma registered_onlyb_sound l : registered_onlyb l = true -> registered_only l.
Proof.
  unfold registered_onlyb. rewrite forallb_forall.
  intros H u br x Hbr Hx. apply dict_get_In in Hbr. apply H in Hbr.
  simpl in Hbr. rewrite forallb_forall in Hbr. now apply Hbr.
Qed.

(** In a registry that is consistent, where every listed book is registered
    and every borrower is within the limit, [get_borrower_books] returns one
    book for each identifier the borrower lists, in the order of the list,
    each of them unavailable, and at most [MAX_BOOKS] of them. *)
Theorem get_borrower_books_of_ledger u l (br : Borrower.t) :
  well_kept l ->
  dict_get u (borrowers l) = Some br ->
  exists bs,
    get_borrower_books u l = Returned bs
    /\ map Book.book_id bs = Borrower.borrowed_books br
    /\ (forall b, In b bs -> Book.available b = false)
    /\ (List.length bs <= 3)%nat.
Proof.
  intros ((Hkey & _ & Hinv) & Hreg & Hlim) Hbr.
  unfold get_borrower_books, dict_mem, dict_getitem. rewrite Hbr. cbn [negb bind].
  rewrite books_listed_returns. eexists. split; [reflexivity|].
  assert (Hlisted : forall id, In id (Borrower.borrowed_books br) ->
            exists b, dict_get id (books l) = Some b
                      /\ Book.book_id b = id /\ Book.available b = false).
  { intros id Hid. pose proof (Hreg u br id Hbr Hid) as Hm.
    unfold dict_mem in Hm. destruct (dict_get id (books l)) as [b|] eqn:Hb;
      [|discriminate].
    exists b. split; [reflexivity|]. pose proof (Hkey id b Hb) as Hidb.
    split; [exact Hidb|]. apply (Hinv id b Hb). exists u, br.
    split; [exact Hbr | now rewrite Hidb]. }
  pose proof (Hlim u br Hbr) as Hlen. unfold Borrower.MAX_BOOKS in Hlen.
  assert (H : map Book.book_id
                (flat_map (fun id => match dict_get id (books l) with
                                     | Some b => [b]
                                     | None => []
                                     end) (Borrower.borrowed_books br))
              = Borrower.borrowed_books br
              /\ forall b,
                   In b (flat_map (fun id => match dict_get id (books l) with
                                             | Some b => [b]
                                             | None => []
                                             end) (Borrower.borrowed_books br)) ->
                   Book.available b = false).
  { revert Hlisted. generalize (Borrower.borrowed_books br) as ids.
    induction ids as [|id ids IH]; intros Hlisted.
    - split; [reflexivity | intros b []].
    - destruct (Hlisted id (or_introl eq_refl)) as (b & Hb & Hidb & Hav).
      destruct IH as (Hmap & Hall); [intros; apply Hlisted; now right|].
      simpl. rewrite Hb. simpl. split; [now rewrite Hmap, Hidb|].
      intros b' [<-|Hb']; [exact Hav | exact (Hall b' Hb')]. }
  destruct H as [Hmap Hall]. split; [exact Hmap|]. split; [exact Hall|].
  apply (f_equal (@List.length string)) in Hmap. rewrite length_map in Hmap.
  lia.
Qed.

Lemma get_borrower_books_of_ledger_sample :
  exists bs,
    get_borrower_books "USER_0002" sample_library = Returned bs
    /\ map Book.book_id bs = ["BOOK_0003"; "BOOK_0004"; "BOOK_0005"]
    /\ (forall b, In b bs -> Book.available b = false)
    /\ (List.length bs <= 3)%nat.
Proof.
  exact (get_borrower_books_of_ledger "USER_0002" sample_library
           (Borrower.mk "USER_0002" "Ann" "a@x.com"
              ["BOOK_0003"; "BOOK_0004"; "BOOK_0005"])
           (conj (consistentb_sound sample_library eq_refl)
                 (conj (registered_onlyb_sound sample_library eq_refl)
                       (within_limitb_sound sample_library eq_refl)))
           eq_refl).
Defined.

End Queries.

(* ================================================================= *)
(** ** Statistics *)

Section Statistics.
Import Library.
Implicit Types (l : Library.t) (g : string) (acc : dict nat) (bs : list Book.t).

(** The number of books of genre [g] among [bs]. *)
Lemma count_genre_get acc (b : Book.t) g :
  dict_get g (count_genre acc b)
  = if String.eqb (Book.genre b) g
    then Some (match dict_get g acc with Some n => n | None => 0 end + 1)%nat
    else dict_get g acc.
Proof.
  unfold count_genre. destruct (String.eqb_spec (Book.genre b) g) as [->|Hne].
  - apply dict_get_set_eq.
  - apply dict_get_set_neq. congruence.
Qed.

Lemma fold_count_genre_get bs acc g :
  dict_get g (fold_left count_genre bs acc)
  = match List.length (filter (fun b => String.eqb (Book.genre b) g) bs),
          dict_get g acc with
    | O, found => found
    | S n, Some m => Some (m + S n)%nat
    | S n, None => Some (S n)
    end.
Proof.
  revert acc. induction bs as [|b bs IH]; intros acc; simpl.
  - now destruct (dict_get g acc).
  - rewrite IH, count_genre_get.
    destruct (String.eqb (Book.genre b) g); simpl; [|reflexivity].
    destruct (List.length (filter (fun b0 => String.eqb (Book.genre b0) g) bs));
      destruct (dict_get g acc); f_equal; lia.
Qed.

Lemma count_genre_sum acc (b : Book.t) :
  list_sum (dict_values (count_genre acc b)) = S (list_sum (dict_values acc)).
Proof.
  unfold count_genre, dict_values.
  induction acc as [|[g0 n0] acc IH]; simpl; [reflexivity|].
  destruct (String.eqb g0 (Book.genre b)); simpl; [lia|].
  rewrite IH. lia.
Qed.

Lemma fold_count_genre_sum bs acc :
  list_sum (dict_values (fold_left count_genre bs acc))
  = (list_sum (dict_values acc) + List.length bs)%nat.
Proof.
  revert acc. induction bs as [|b bs IH]; intros acc; simpl; [lia|].
  rewrite IH, count_genre_sum. lia.
Qed.

(** The numbers of [get_statistics] add up: the available and the checked
    out books are all the books, and so are the books counted by genre; a
    genre is a key of [books_by_genre] exactly when a book has it, with the
    number of the books that have it. *)
Theorem statistics_add_up l :
  (available_books (get_statistics l) + checked_out (get_statistics l)
   = total_books (get_statistics l))%nat
  /\ list_sum (dict_values (books_by_genre (get_statistics l)))
     = total_books (get_statistics l)
  /\ (forall g,
        dict_get g (books_by_genre (get_statistics l))
        = match List.length
                  (filter (fun b => String.eqb (Book.genre b) g)
                          (dict_values (books l))) with
          | O => None
          | S n => Some (S n)
          end)
  /\ total_books (get_statistics l) = List.length (dict_keys (books l))
  /\ total_borrowers (get_statistics l) = List.length (dict_keys (borrowers l)).
Proof.
  unfold get_statistics. cbn [available_books checked_out total_books
                                total_borrowers books_by_genre].
  split; [|split; [|split; [|split]]].
  - rewrite filter_length. unfold dict_values. apply length_map.
  - rewrite fold_count_genre_sum. unfold dict_values. simpl. apply length_map.
  - intros g. rewrite fold_count_genre_get. simpl.
    now destruct (List.length _).
  - unfold dict_keys. now rewrite length_map.
  - unfold dict_keys. now rewrite length_map.
Qed.

Lemma NoDup_flat_map_borrowed (d : dict Borrower.t) :
  NoDup (dict_keys d) ->
  (forall u br, In (u, br) d -> NoDup (Borrower.borrowed_books br)) ->
  (forall u1 br1 u2 br2 x,
     In (u1, br1) d -> In (u2, br2) d ->
     In x (Borrower.borrowed_books br1) -> In x (Borrower.borrowed_books br2) ->
     u1 = u2) ->
  NoDup (flat_map Borrower.borrowed_books (dict_values d)).
Proof.
  unfold dict_keys, dict_values.
  induction d as [|[u br] d IH]; simpl; intros Hnd Hone Huniq; [constructor|].
  inversion Hnd as [|? ? Hu Hnd']; subst.
  apply NoDup_app.
  - apply (Hone u br). now left.
  - apply IH; [exact Hnd'| |].
    + intros u' br' Hin. apply (Hone u' br'). now right.
    + intros u1 br1 u2 br2 x H1 H2. apply (Huniq u1 br1 u2 br2 x); now right.
  - intros x Hx Hx'. apply in_flat_map in Hx'.
    destruct Hx' as (br' & Hbr' & Hx'). apply in_map_iff in Hbr'.
    destruct Hbr' as ([u' br''] & <- & Hin). simpl in Hx'.
    assert (u = u') by (apply (Huniq u br u' br'' x); auto).
    subst u'. apply Hu. apply (in_map fst) in Hin. exact Hin.
Qed.

(** In a registry that is consistent, with unique keys and every listed
    book registered, the number of checked out books in the statistics is
    the number of books the borrowers list, all together. *)
Theorem statistics_checked_out_are_listed l :
  consistent l ->
  registered_only l ->
  NoDup (dict_keys (books l)) ->
  NoDup (dict_keys (borrowers l)) ->
  checked_out (get_statistics l)
  = list_sum (map (fun br => List.length (Borrower.borrowed_books br))
                  (dict_values (borrowers l))).
Proof.
  intros (Hkey & Hone & Hinv) Hreg Hnb Hnbr.
  unfold get_statistics. cbn [checked_out].
  rewrite <- length_flat_map.
  rewrite <- (length_map Book.book_id).
  apply Permutation_length, NoDup_Permutation.
  - (* the unavailable books have different identifiers *)
    assert (Hids : map Book.book_id (dict_values (books l)) = dict_keys (books l)).
    { unfold dict_values, dict_keys. rewrite map_map. apply map_ext_in.
      intros [k b] Hin. simpl. apply Hkey. now apply In_dict_get. }
    assert (Hnd : NoDup (map Book.book_id (dict_values (books l))))
      by now rewrite Hids.
    revert Hnd. generalize (dict_values (books l)) as bs.
    induction bs as [|b bs IH]; simpl; intros Hnd; [constructor|].
    inversion Hnd as [|? ? Hb Hnd']; subst.
    destruct (Book.available b); simpl; [now apply IH|].
    constructor; [|now apply IH].
    intros Hin. apply Hb. apply in_map_iff in Hin.
    destruct Hin as (b' & Hid & Hb'). apply filter_In in Hb'.
    apply in_map_iff. exists b'. tauto.
  - apply NoDup_flat_map_borrowed; [exact Hnbr| |].
    + intros u br Hin. apply (Hone u br). now apply In_dict_get.
    + intros u1 br1 u2 br2 x H1 H2 Hx1 Hx2.
      apply In_dict_get in H1, H2; try assumption.
      pose proof (Hreg u1 br1 x H1 Hx1) as Hm. unfold dict_mem in Hm.
      destruct (dict_get x (books l)) as [b|] eqn:Hb; [|discriminate].
      destruct (Hinv x b Hb) as [_ Huniq].
      rewrite (Hkey x b Hb) in Huniq. apply Huniq; [exists br1 | exists br2]; auto.
  - intros x. rewrite in_map_iff, in_flat_map. split.
    + intros (b & <- & Hb). apply filter_In in Hb. destruct Hb as [Hb Hav].
      destruct (In_values_get _ _ Hnb Hb) as (k & Hk).
      destruct (Hinv k b Hk) as [[Hlisted _] _].
      destruct Hlisted as (u & br & Hbr & Hx);
        [now destruct (Book.available b)|].
      exists br. split; [|exact Hx]. eapply dict_get_In_values, Hbr.
    + intros (br & Hbr & Hx).
      destruct (In_values_get _ _ Hnbr Hbr) as (u & Hu).
      pose proof (Hreg u br x Hu Hx) as Hm. unfold dict_mem in Hm.
      destruct (dict_get x (books l)) as [b|] eqn:Hb; [|discriminate].
      exists b. split; [now apply Hkey|]. apply filter_In.
      split; [eapply dict_get_In_values, Hb|].
      destruct (Hinv x b Hb) as [[_ Hheld] _].
      rewrite Hheld; [reflexivity|]. exists u, br.
      split; [exact Hu | now rewrite (Hkey x b Hb)].
Qed.

Lemma statistics_checked_out_are_listed_sample :
  checked_out (get_statistics sample_library)
  = list_sum (map (fun br => List.length (Borrower.borrowed_books br))
                  (dict_values sample_borrowers)).
Proof.
  exact (statistics_checked_out_are_listed sample_library
           (consistentb_sound sample_library eq_refl)
           (registered_onlyb_sound sample_library eq_refl)
           (nodupb_NoDup (dict_keys sample_books) eq_refl)
           (nodupb_NoDup (dict_keys sample_borrowers) eq_refl)).
Defined.

End Statistics.

(* ================================================================= *)
(** ** Searching in steps *)

Section SearchSteps.
Implicit Types (items : list (dict value)) (c : dict value).

Lemma satisfiesb_app c1 c2 (item : dict value) :
  satisfiesb (c1 ++ c2) item = satisfiesb c1 item && satisfiesb c2 item.
Proof. unfold satisfiesb. apply forallb_app. Qed.

Lemma filter_andb {A : Type} (p q : A -> bool) (xs : list A) :
  filter (fun x => p x && q x) xs = filter q (filter p xs).
Proof.
  induction xs as [|x xs IH]; simpl; [reflexivity|].
  destruct (p x); simpl; [|exact IH]. destruct (q x); now rewrite IH.
Qed.

(** Searching with several constraints at once is searching with the first
    ones and then, in what was found, with the others. *)
Theorem search_items_in_steps items c1 c2 :
  dict_mem "items" (c1 ++ c2) = false ->
  search_items items (c1 ++ c2)
  = (found <- search_items items c1 ;; search_items found c2).
Proof.
  intros H.
  assert (H1 : dict_mem "items" c1 = false /\ dict_mem "items" c2 = false).
  { unfold dict_mem in *.
    destruct (dict_get "items" (c1 ++ c2)) eqn:E; [discriminate|].
    apply dict_get_app_None in E. destruct E as [E1 E2]. now rewrite E1, E2. }
  destruct H1 as [H1 H2].
  rewrite (search_items_filter items (c1 ++ c2) H).
  rewrite (search_items_filter items c1 H1). cbn [bind].
  rewrite (search_items_filter _ c2 H2).
  f_equal. rewrite <- filter_andb. apply filter_ext. intros item.
  apply satisfiesb_app.
Qed.

Lemma search_items_in_steps_sample :
  search_items (map Book.to_dict (dict_values sample_books))
    ([("genre", VStr "history")] ++ [("available", VBool false)])
  = (found <- search_items (map Book.to_dict (dict_values sample_books))
                [("genre", VStr "history")] ;;
     search_items found [("available", VBool false)]).
Proof.
  exact (search_items_in_steps (map Book.to_dict (dict_values sample_books))
           [("genre", VStr "history")] [("available", VBool false)] eq_refl).
Defined.

Lemma values_matchb_case (item_val : value) (s s' : string) :
  lower s = lower s' ->
  values_matchb item_val (VStr s) = values_matchb item_val (VStr s').
Proof. intros H. destruct item_val; simpl; try reflexivity. now rewrite H. Qed.

(** The case of the letters of a wanted string does not matter: two
    constraints on a field whose strings are equal once lowercased find the
    same items. *)
Theorem search_items_ignores_case items c1 c2 (key s s' : string) :
  lower s = lower s' ->
  search_items items (c1 ++ (key, VStr s) :: c2)
  = search_items items (c1 ++ (key, VStr s') :: c2).
Proof.
  intros Hcase. unfold search_items.
  assert (Hmem : dict_mem "items" (c1 ++ (key, VStr s) :: c2)
                 = dict_mem "items" (c1 ++ (key, VStr s') :: c2)).
  { unfold dict_mem. induction c1 as [|[k0 v0] c1 IH]; simpl.
    - now destruct (String.eqb key "items").
    - destruct (String.eqb k0 "items"); [reflexivity | exact IH]. }
  rewrite Hmem.
  destruct (dict_mem "items" (c1 ++ (key, VStr s') :: c2)); [reflexivity|].
  rewrite !search_loop_filter. f_equal. f_equal. apply filter_ext.
  intros item. rewrite !satisfiesb_app. f_equal.
  unfold satisfiesb. simpl. destruct (dict_get key item) as [v|]; [|reflexivity].
  now rewrite (values_matchb_case v s s' Hcase).
Qed.

Lemma search_items_ignores_case_sample :
  search_items (map Book.to_dict (dict_values sample_books))
    ([("available", VBool true)] ++ [("genre", VStr "SCIENCE")])
  = search_items (map Book.to_dict (dict_values sample_books))
      ([("available", VBool true)] ++ [("genre", VStr "science")]).
Proof.
  exact (search_items_ignores_case (map Book.to_dict (dict_values sample_books))
           [("available", VBool true)] [] "genre" "SCIENCE" "science" eq_refl).
Defined.

End SearchSteps.
